(** * go-nanoVNA: the hardware abstraction and protocol client of nanovna.go

    A shallow embedding of [nanovna.go] and of the test double of
    [nanovna_test.go], followed by the properties of the capability
    registry, the command channel, the variant detector, the sweep
    configurator and the sweep data parser.

    Conventions of the embedding.
    - Go [int] values are [Z]; the code only compares and prints them.
    - Go strings are byte strings: [string] of the Standard Library.
    - A Go [(value, error)] result is a pair whose second component is an
      [option]: [None] is Go's [nil] error.
    - A method on [*Device] takes the device and returns its result
      together with the device after the call.
    - [time.Sleep] has no effect on the modelled state and is left out.
    - [GetPortDetails] only formats the stored configuration for display
      and is not embedded. *)

From Stdlib Require Import ZArith List Bool Ascii String Lia.
From Stdlib Require Import Numbers.DecimalString.
Import ListNotations.

Local Open Scope string_scope.

(* ================================================================== *)
(** * The functions of Go's [strings] and [fmt] that the code calls

    They act on bytes.  Go's [TrimSpace], [Fields] and [ToLower] also know
    the white space and the letters of Unicode beyond ASCII; the instrument
    speaks ASCII and the model keeps to it: a byte above 127 is no space
    and has no lower case. *)

Module GoStrings.

(** [strings.HasPrefix]. *)
Definition HasPrefix (s pre : string) : bool := String.prefix pre s.

(** [strings.Contains]: [substr] occurs somewhere in [s]. *)
Fixpoint Contains (s substr : string) : bool :=
  String.prefix substr s ||
  match s with
  | EmptyString => false
  | String _ rest => Contains rest substr
  end.

(** [strings.TrimPrefix]. *)
Definition TrimPrefix (s pre : string) : string :=
  if String.prefix pre s
  then String.substring (String.length pre)
                        (String.length s - String.length pre) s
  else s.

(** The ASCII white space of [unicode.IsSpace]:
    tab, line feed, vertical tab, form feed, carriage return, space. *)
Definition isSpace (c : ascii) : bool :=
  let n := nat_of_ascii c in
  ((9 <=? n) && (n <=? 13))%nat || (n =? 32)%nat.

Fixpoint trimLeft (s : string) : string :=
  match s with
  | EmptyString => EmptyString
  | String c rest => if isSpace c then trimLeft rest else s
  end.

Fixpoint trimRight (s : string) : string :=
  match s with
  | EmptyString => EmptyString
  | String c rest =>
      match trimRight rest with
      | EmptyString => if isSpace c then EmptyString else String c EmptyString
      | t => String c t
      end
  end.

(** [strings.TrimSpace]. *)
Definition TrimSpace (s : string) : string := trimRight (trimLeft s).

(** [strings.Fields]: the maximal runs of bytes that are not white space.
    [cur] is the field being read. *)
Fixpoint fieldsFrom (s cur : string) : list string :=
  match s with
  | EmptyString => match cur with EmptyString => [] | _ => [cur] end
  | String c rest =>
      if isSpace c
      then match cur with
           | EmptyString => fieldsFrom rest EmptyString
           | _ => cur :: fieldsFrom rest EmptyString
           end
      else fieldsFrom rest (cur ++ String c EmptyString)
  end.

Definition Fields (s : string) : list string := fieldsFrom s EmptyString.

(** [strings.Split(s, sep)] for a separator of one byte, the only kind the
    code uses ("\n" and ":").  The result is never empty. *)
Fixpoint Split (s : string) (sep : ascii) : list string :=
  match s with
  | EmptyString => [EmptyString]
  | String c rest =>
      if Ascii.eqb c sep then EmptyString :: Split rest sep
      else match Split rest sep with
           | piece :: pieces => String c piece :: pieces
           | [] => [String c EmptyString]
           end
  end.

Definition lowerByte (c : ascii) : ascii :=
  let n := nat_of_ascii c in
  if ((65 <=? n) && (n <=? 90))%nat then ascii_of_nat (n + 32) else c.

(** [strings.ToLower]. *)
Fixpoint ToLower (s : string) : string :=
  match s with
  | EmptyString => EmptyString
  | String c rest => String (lowerByte c) (ToLower rest)
  end.

(** The verb [%d] of [fmt]. *)
Definition formatInt (z : Z) : string := NilZero.string_of_int (Z.to_int z).

Fixpoint extraArgs (args : list Z) : string :=
  match args with
  | [] => ""
  | [a] => "int=" ++ formatInt a
  | a :: rest => "int=" ++ formatInt a ++ ", " ++ extraArgs rest
  end.

(** [fmt.Sprintf] for templates whose only verb is [%d], as all the
    templates of the registry are.  A verb without an argument prints
    [%!d(MISSING)] and arguments left over are listed under [%!(EXTRA ...)],
    as [fmt] does. *)
Fixpoint Sprintf (template : string) (args : list Z) : string :=
  match template with
  | EmptyString =>
      match args with
      | [] => ""
      | _ => "%!(EXTRA " ++ extraArgs args ++ ")"
      end
  | String "%"%char (String "d"%char rest) =>
      match args with
      | a :: args' => formatInt a ++ Sprintf rest args'
      | [] => "%!d(MISSING)" ++ Sprintf rest []
      end
  | String c rest => String c (Sprintf rest args)
  end.

End GoStrings.
Import GoStrings.

Local Open Scope Z_scope.

(* ================================================================== *)
(** * Data model *)

(** [HardwareVariant]: the nine constants of the [iota] block, in order. *)
Inductive HardwareVariant : Type :=
| VariantUnknown
| VariantV1
| VariantVH
| VariantV2
| VariantV2Plus
| VariantV2Plus4
| VariantSAA2
| VariantTinysa
| VariantLiteVNA.

Definition HardwareVariant_eqb (a b : HardwareVariant) : bool :=
  match a, b with
  | VariantUnknown, VariantUnknown | VariantV1, VariantV1
  | VariantVH, VariantVH | VariantV2, VariantV2
  | VariantV2Plus, VariantV2Plus | VariantV2Plus4, VariantV2Plus4
  | VariantSAA2, VariantSAA2 | VariantTinysa, VariantTinysa
  | VariantLiteVNA, VariantLiteVNA => true
  | _, _ => false
  end.

(** [HardwareVariant.String]. *)
Definition HardwareVariant_String (hv : HardwareVariant) : string :=
  match hv with
  | VariantV1 => "NanoVNA v1"
  | VariantVH => "NanoVNA-H"
  | VariantV2 => "NanoVNA v2"
  | VariantV2Plus => "NanoVNA v2 Plus"
  | VariantV2Plus4 => "NanoVNA v2 Plus4"
  | VariantSAA2 => "SAA2"
  | VariantTinysa => "TinySA"
  | VariantLiteVNA => "LiteVNA"
  | _ => "Unknown"
  end.

(** [FrequencyRange].  The fields are [float64] in Go.  Every value the
    code stores in them is a whole number of hertz, so the model keeps the
    value of the float as a [Z]. *)
Record FrequencyRange : Type := {
  MinHz : Z;
  MaxHz : Z
}.

Record CommandSet : Type := {
  SweepCommand : string;
  FreqCommand : string;
  DataCommand : string;
  InfoCommand : string;
  VersionCommand : string;
  CalibrationSave : string;
  CalibrationLoad : string;
  PromptPattern : string
}.

Record HardwareCapabilities : Type := {
  HasS21 : bool;
  HasTimeDomain : bool;
  HasCalibration : bool;
  HasMultiplePorts : bool;
  HasGenerator : bool;
  HasSpectrumMode : bool
}.

Record HardwareInfo : Type := {
  Variant : HardwareVariant;
  Range : FrequencyRange;          (* the field FrequencyRange *)
  MaxSweepPoints : Z;
  SupportedPorts : list string;
  Commands : CommandSet;           (* the field CommandSet *)
  Capabilities : HardwareCapabilities
}.

(** The command set shared by V1, VH, TinySA and the default case. *)
Definition chCommands : CommandSet := {|
  SweepCommand := "sweep %d %d %d";
  FreqCommand := "frequencies";
  DataCommand := "data %d";
  InfoCommand := "info";
  VersionCommand := "version";
  CalibrationSave := "save %d";
  CalibrationLoad := "recall %d";
  PromptPattern := "ch>"
|}.

(** The command set shared by V2, V2Plus and V2Plus4. *)
Definition v2Commands : CommandSet := {|
  SweepCommand := "sweep %d %d %d";
  FreqCommand := "freq";
  DataCommand := "data %d";
  InfoCommand := "info";
  VersionCommand := "version";
  CalibrationSave := "save %d";
  CalibrationLoad := "recall %d";
  PromptPattern := "2>"
|}.

(** [getHardwareInfo]: one case per [case] of the switch; [VariantUnknown],
    [VariantSAA2] and [VariantLiteVNA] have no case and take [default]. *)
Definition getHardwareInfo (variant : HardwareVariant) : HardwareInfo :=
  match variant with
  | VariantV1 => {|
      Variant := VariantV1;
      Range := {| MinHz := 50000; MaxHz := 900000000 |};
      MaxSweepPoints := 101;
      SupportedPorts := ["S11"; "S21"];
      Commands := chCommands;
      Capabilities := {| HasS21 := true; HasTimeDomain := false;
                         HasCalibration := true; HasMultiplePorts := false;
                         HasGenerator := false; HasSpectrumMode := false |} |}
  | VariantVH => {|
      Variant := VariantVH;
      Range := {| MinHz := 50000; MaxHz := 1500000000 |};
      MaxSweepPoints := 201;
      SupportedPorts := ["S11"; "S21"];
      Commands := chCommands;
      Capabilities := {| HasS21 := true; HasTimeDomain := true;
                         HasCalibration := true; HasMultiplePorts := false;
                         HasGenerator := true; HasSpectrumMode := false |} |}
  | VariantV2 => {|
      Variant := VariantV2;
      Range := {| MinHz := 50000; MaxHz := 3000000000 |};
      MaxSweepPoints := 4000;
      SupportedPorts := ["S11"; "S21"];
      Commands := v2Commands;
      Capabilities := {| HasS21 := true; HasTimeDomain := true;
                         HasCalibration := true; HasMultiplePorts := false;
                         HasGenerator := true; HasSpectrumMode := true |} |}
  | VariantV2Plus => {|
      Variant := VariantV2Plus;
      Range := {| MinHz := 50000; MaxHz := 6000000000 |};
      MaxSweepPoints := 4000;
      SupportedPorts := ["S11"; "S21"];
      Commands := v2Commands;
      Capabilities := {| HasS21 := true; HasTimeDomain := true;
                         HasCalibration := true; HasMultiplePorts := false;
                         HasGenerator := true; HasSpectrumMode := true |} |}
  | VariantV2Plus4 => {|
      Variant := VariantV2Plus4;
      Range := {| MinHz := 50000; MaxHz := 6000000000 |};
      MaxSweepPoints := 4000;
      SupportedPorts := ["S11"; "S21"; "S12"; "S22"];
      Commands := v2Commands;
      Capabilities := {| HasS21 := true; HasTimeDomain := true;
                         HasCalibration := true; HasMultiplePorts := true;
                         HasGenerator := true; HasSpectrumMode := true |} |}
  | VariantTinysa => {|
      Variant := VariantTinysa;
      Range := {| MinHz := 100000; MaxHz := 960000000 |};
      MaxSweepPoints := 500;
      SupportedPorts := ["S11"];
      Commands := chCommands;
      Capabilities := {| HasS21 := false; HasTimeDomain := false;
                         HasCalibration := true; HasMultiplePorts := false;
                         HasGenerator := true; HasSpectrumMode := true |} |}
  | _ => {|
      Variant := VariantUnknown;
      Range := {| MinHz := 50000; MaxHz := 900000000 |};
      MaxSweepPoints := 101;
      SupportedPorts := ["S11"];
      Commands := chCommands;
      Capabilities := {| HasS21 := false; HasTimeDomain := false;
                         HasCalibration := true; HasMultiplePorts := false;
                         HasGenerator := false; HasSpectrumMode := false |} |}
  end.

(** [float64(x)] for an [int] [x]: the nearest number with a mantissa of 53
    bits, ties going to the even mantissa.  Such a number is whole, and no
    [int] is large enough to overflow the exponent. *)
Definition float64_of_int (x : Z) : Z :=
  let a := Z.abs x in
  let bits := Z.log2 a + 1 in
  if bits <=? 53 then x
  else
    let s := bits - 53 in
    let q := Z.shiftr a s in
    let r := a - Z.shiftl q s in
    let half := Z.shiftl 1 (s - 1) in
    let q' := if (half <? r) || ((r =? half) && Z.odd q) then q + 1 else q in
    Z.sgn x * Z.shiftl q' s.

(** The error values of the package.  An error of the transport is known
    by its [Error()] text, the only thing the code asks of it; the errors
    the package builds with [errors.New] and [fmt.Errorf] keep the
    arguments of their message instead of the formatted text. *)
Inductive error : Type :=
| PortError (msg : string)
    (* an error returned by the serial port *)
| ErrDeviceNotOpen
    (* "device not open" *)
| ErrWriteCommand (cause : error)
    (* "failed to write command: %v" *)
| ErrStartBelowMin (startHz minHz : Z) (v : HardwareVariant)
    (* "start frequency %d Hz is below minimum %g Hz for %s" *)
| ErrStopAboveMax (stopHz maxHz : Z) (v : HardwareVariant)
    (* "stop frequency %d Hz is above maximum %g Hz for %s" *)
| ErrTooManyPoints (points maxPoints : Z) (v : HardwareVariant)
    (* "requested %d points exceeds maximum %d for %s" *)
| ErrSweepConfigV2 (cause : error)
    (* "failed to set sweep config with any V2 command format: %v" *)
| ErrSweepConfig (cause : error)
    (* "failed to set sweep config: %v" *)
| ErrGetFrequencies (cause : error)
    (* "failed to get frequencies: %v" *)
| ErrGetS11 (cause : error)
    (* "failed to get S11 data: %v" *)
| ErrNoValidData
    (* "no valid measurement data received" *)
| ErrUnrecognizedResponse (response : string)
    (* "unrecognized response: %q" *)
| ErrNoSerialPorts
    (* "no serial ports found" *)
| ErrListPorts (cause : error)
    (* "failed to list serial ports: %v" *)
| ErrNoDevicesFound.
    (* "no NanoVNA devices found on any serial port" *)

(** [PortConfig].  [ReadTimeout] is a [time.Duration], a count of
    nanoseconds; [Parity] and [StopBits] are the byte values of
    [tarm/serial]. *)
Record PortConfig : Type := {
  Name : string;
  Baud : Z;
  ReadTimeout : Z;
  Size : Z;
  Parity : Z;
  StopBits : Z
}.

Definition time_Second : Z := 1000000000.
Definition serial_ParityNone : Z := 78.   (* 'N' *)
Definition serial_Stop1 : Z := 1.

(** The interface [SerialPort].  [P] is the state of an implementation.
    [Read p n] stands for a call [Read(buf)] with [len(buf) = n]: it gives
    the bytes [buf[:count]] the call delivered and the error.  [Write]
    gives the error only, the byte count being ignored by every caller. *)
Class SerialPort (P : Type) : Type := {
  port_Write : P -> string -> option string * P;
  port_Read : P -> nat -> (string * option string) * P;
  port_Close : P -> option string * P
}.

(** [float64] and [strconv.ParseFloat(s, 64)], which the parser of sweep
    data takes from the Go library: [ParseFloat s] is [None] when Go's call
    returns an error.  [float_zero] is the constant [0]. *)
Class Float64 (F : Type) : Type := {
  ParseFloat : string -> option F;
  float_zero : F
}.

Record DeviceInfo : Type := {
  Model : string;
  Firmware : string;
  SerialNum : string
}.

(** [CalibrationData] has no field yet. *)
Inductive CalibrationData : Type := EmptyCalibration.

Record Device (P : Type) : Type := {
  Port : string;
  portHandle : option P;
  config : option PortConfig;
  version : string;
  variant : HardwareVariant;
  hardwareInfo : HardwareInfo
}.
Arguments Port {P} _.
Arguments portHandle {P} _.
Arguments config {P} _.
Arguments version {P} _.
Arguments variant {P} _.
Arguments hardwareInfo {P} _.

Record SweepData (F : Type) : Type := {
  Frequencies : list F;
  S11 : list (F * F);
  S21 : list (F * F)
}.
Arguments Frequencies {F} _.
Arguments S11 {F} _.
Arguments S21 {F} _.

(* ================================================================== *)
(** * The operations of [Device] *)

Section Operations.

Context {P : Type} {SP : SerialPort P}.

(** The device after an assignment to one of its fields. *)
Definition withPortHandle (d : Device P) (h : option P) : Device P :=
  {| Port := Port d; portHandle := h; config := config d;
     version := version d; variant := variant d;
     hardwareInfo := hardwareInfo d |}.

Definition withIdentity (d : Device P) (ver : string)
    (v : HardwareVariant) (hi : HardwareInfo) : Device P :=
  {| Port := Port d; portHandle := portHandle d; config := config d;
     version := ver; variant := v; hardwareInfo := hi |}.

(** ** Accessors *)

Definition SetPortHandle (sp : option P) (d : Device P) : Device P :=
  withPortHandle d sp.

Definition GetPortHandle (d : Device P) : option P := portHandle d.
Definition GetPortConfig (d : Device P) : option PortConfig := config d.
Definition GetHardwareVariant (d : Device P) : HardwareVariant := variant d.
Definition GetHardwareInfo (d : Device P) : HardwareInfo := hardwareInfo d.
Definition GetFrequencyRange (d : Device P) : FrequencyRange :=
  Range (hardwareInfo d).
Definition GetMaxSweepPoints (d : Device P) : Z :=
  MaxSweepPoints (hardwareInfo d).
Definition GetVersion (d : Device P) : string := version d.

Definition IsPortSupported (d : Device P) (port : string) : bool :=
  existsb (fun p => String.eqb p port) (SupportedPorts (hardwareInfo d)).

(** ** [Close]

    The handle is set to [nil]: the state of the closed port is no longer
    reachable from the device. *)
Definition Close (d : Device P) : option error * Device P :=
  match portHandle d with
  | Some p =>
      let '(err, _) := port_Close p in
      (option_map PortError err, withPortHandle d None)
  | None => (None, d)
  end.

(** ** The command channel: [sendCommand] *)

(** Carriage return, line feed. *)
Definition cr : string := String "013" "".
Definition crlf : string := String "013" (String "010" "").
Definition newline : ascii := "010"%char.

Definition bufLen : nat := 1024.
Definition maxAttempts : nat := 10.

(** The [for] loop of [sendCommand].  [remaining] is
    [maxAttempts - attempts], [response] the text of the
    [strings.Builder]. *)
Fixpoint readLoop (remaining : nat) (response : string) (p : P)
  : (string * option error) * P :=
  match remaining with
  | O => ((response, None), p)
  | S remaining' =>
      let '((chunk, err), p') := port_Read p bufLen in
      match err with
      | Some e =>
          if Contains e "timeout" && (0 <? String.length response)%nat
          then ((response, None), p')
          else ((response, Some (PortError e)), p')
      | None =>
          if (0 <? String.length chunk)%nat then
            let response' := response ++ chunk in
            if Contains chunk "ch>" then ((response', None), p')
            else readLoop remaining' response' p'
          else readLoop remaining' response p'
      end
  end.

Definition sendCommand (cmd : string) (d : Device P)
  : (string * option error) * Device P :=
  match portHandle d with
  | None => (("", Some ErrDeviceNotOpen), d)
  | Some p =>
      let '(_, p1) := port_Read p bufLen in              (* drain buffer *)
      let '(werr, p2) := port_Write p1 (cmd ++ cr) in
      match werr with
      | Some e =>
          (("", Some (ErrWriteCommand (PortError e))),
           withPortHandle d (Some p2))
      | None =>
          let '(result, p3) := readLoop maxAttempts "" p2 in
          (result, withPortHandle d (Some p3))
      end
  end.

(** ** The sweep configurator: [SetSweepConfig] *)
Definition SetSweepConfig (startHz stopHz points : Z) (d : Device P)
  : option error * Device P :=
  let hi := hardwareInfo d in
  if float64_of_int startHz <? MinHz (Range hi) then
    (Some (ErrStartBelowMin startHz (MinHz (Range hi)) (variant d)), d)
  else if MaxHz (Range hi) <? float64_of_int stopHz then
    (Some (ErrStopAboveMax stopHz (MaxHz (Range hi)) (variant d)), d)
  else if MaxSweepPoints hi <? points then
    (Some (ErrTooManyPoints points (MaxSweepPoints hi) (variant d)), d)
  else
    let cmd := Sprintf (SweepCommand (Commands hi)) [startHz; stopHz; points] in
    match variant d with
    | VariantV2 | VariantV2Plus | VariantV2Plus4 =>
        let '((_, err), d1) := sendCommand cmd d in
        match err with
        | None => (None, d1)
        | Some e =>
            let '((_, err2), d2) :=
              sendCommand (Sprintf "sweep start %d" [startHz]) d1 in
            match err2 with
            | None => (None, d2)
            | Some _ =>
                let '((_, err3), d3) :=
                  sendCommand (Sprintf "sweep stop %d" [stopHz]) d2 in
                match err3 with
                | None => (None, d3)
                | Some _ =>
                    let '((_, err4), d4) :=
                      sendCommand (Sprintf "sweep points %d" [points]) d3 in
                    match err4 with
                    | None => (None, d4)
                    | Some _ => (Some (ErrSweepConfigV2 e), d4)
                    end
                end
            end
        end
    | _ =>
        let '((_, err), d1) := sendCommand cmd d in
        match err with
        | None => (None, d1)
        | Some e =>
            let '((_, err2), d2) :=
              sendCommand (Sprintf "start %d" [startHz]) d1 in
            match err2 with
            | None => (None, d2)
            | Some _ =>
                let '((_, err3), d3) :=
                  sendCommand (Sprintf "stop %d" [stopHz]) d2 in
                match err3 with
                | None => (None, d3)
                | Some _ =>
                    let '((_, err4), d4) :=
                      sendCommand (Sprintf "points %d" [points]) d3 in
                    match err4 with
                    | None => (None, d4)
                    | Some _ => (Some (ErrSweepConfig e), d4)
                    end
                end
            end
        end
    end.

(** ** The sweep data parser: [RunSweep] *)

Context {F : Type} {FL : Float64 F}.

(** [complex(0, 0)]. *)
Definition complex_zero : F * F := (float_zero, float_zero).

(** The body of the loop over the lines of the frequency response: the
    frequency the line contributes, if any. *)
Definition parseFrequencyLine (freqCmd prompt line : string) : option F :=
  let line := TrimSpace line in
  if String.eqb line "" || String.eqb line freqCmd
     || Contains line prompt || Contains line "?"
  then None
  else ParseFloat line.

Fixpoint parseFrequencies (freqCmd prompt : string) (lines : list string)
    (acc : list F) : list F :=
  match lines with
  | [] => acc
  | line :: rest =>
      match parseFrequencyLine freqCmd prompt line with
      | Some freq => parseFrequencies freqCmd prompt rest (acc ++ [freq])%list
      | None => parseFrequencies freqCmd prompt rest acc
      end
  end.

(** The body of the loop over the lines of a data response (the loops of
    S11 and of S21 are the same code): the sample the line contributes. *)
Definition parseDataLine (prompt line : string) : option (F * F) :=
  let line := TrimSpace line in
  if String.eqb line "" || HasPrefix line "data"
     || Contains line prompt || Contains line "?"
  then None
  else
    match Fields line with
    | re :: im :: _ =>
        match ParseFloat re, ParseFloat im with
        | Some real, Some imag => Some (real, imag)
        | _, _ => None
        end
    | _ => None
    end.

Fixpoint parseData (prompt : string) (lines : list string)
    (acc : list (F * F)) : list (F * F) :=
  match lines with
  | [] => acc
  | line :: rest =>
      match parseDataLine prompt line with
      | Some sample => parseData prompt rest (acc ++ [sample])%list
      | None => parseData prompt rest acc
      end
  end.

(** [for range data.S11 { data.S21 = append(data.S21, complex(0, 0)) }]. *)
Definition dummyS21 (s11 s21 : list (F * F)) : list (F * F) :=
  fold_left (fun acc _ => (acc ++ [complex_zero])%list) s11 s21.

(** [for len(s) < n { s = append(s, complex(0, 0)) }]: the loop runs
    [n - len(s)] times. *)
Fixpoint appendZeros (times : nat) (s : list (F * F)) : list (F * F) :=
  match times with
  | O => s
  | S times' => appendZeros times' (s ++ [complex_zero])%list
  end.

Definition padZeros (n : nat) (s : list (F * F)) : list (F * F) :=
  appendZeros (n - List.length s) s.

Definition emptySweep : SweepData F :=
  {| Frequencies := []; S11 := []; S21 := [] |}.

Definition RunSweep (d : Device P) : (SweepData F * option error) * Device P :=
  let hi := hardwareInfo d in
  let prompt := PromptPattern (Commands hi) in
  (* Step 1: frequencies *)
  let freqCmd := FreqCommand (Commands hi) in
  let '((freqResp, err), d1) := sendCommand freqCmd d in
  match err with
  | Some e => ((emptySweep, Some (ErrGetFrequencies e)), d1)
  | None =>
      let frequencies :=
        parseFrequencies freqCmd prompt (Split freqResp newline) [] in
      (* Step 2: S11 *)
      let s11Cmd := Sprintf (DataCommand (Commands hi)) [0] in
      let '((s11Resp, err), d2) := sendCommand s11Cmd d1 in
      match err with
      | Some e => ((emptySweep, Some (ErrGetS11 e)), d2)
      | None =>
          let s11 := parseData prompt (Split s11Resp newline) [] in
          (* Step 3: S21 if supported *)
          let '(s21, d3) :=
            if HasS21 (Capabilities hi) && IsPortSupported d2 "S21" then
              let s21Cmd := Sprintf (DataCommand (Commands hi)) [1] in
              let '((s21Resp, err), d3) := sendCommand s21Cmd d2 in
              match err with
              | Some _ => (dummyS21 s11 [], d3)
              | None => (parseData prompt (Split s21Resp newline) [], d3)
              end
            else ([], d2) in
          let s21 := padZeros (List.length s11) s21 in
          if (List.length frequencies =? 0)%nat || (List.length s11 =? 0)%nat
          then ((emptySweep, Some ErrNoValidData), d3)
          else
            let minLen :=
              if (List.length s11 <? List.length frequencies)%nat
              then List.length s11 else List.length frequencies in
            let s21 :=
              if (minLen <=? List.length s21)%nat
              then firstn minLen s21
              else padZeros minLen s21 in
            (({| Frequencies := firstn minLen frequencies;
                 S11 := firstn minLen s11;
                 S21 := s21 |}, None), d3)
      end
  end.

(** ** The device info parser: [GetInfo] *)

Definition withModel (info : DeviceInfo) (m : string) : DeviceInfo :=
  {| Model := m; Firmware := Firmware info; SerialNum := SerialNum info |}.
Definition withFirmware (info : DeviceInfo) (f : string) : DeviceInfo :=
  {| Model := Model info; Firmware := f; SerialNum := SerialNum info |}.
Definition withSerialNum (info : DeviceInfo) (n : string) : DeviceInfo :=
  {| Model := Model info; Firmware := Firmware info; SerialNum := n |}.

(** The inner loop over [parts]: the first token that starts with "v"
    and is longer than one byte. *)
Definition firmwareToken (parts : list string) : option string :=
  find (fun part => HasPrefix part "v" && (1 <? String.length part)%nat) parts.

(** The body of the loop over the lines of the info response. *)
Definition infoLine (d : Device P) (infoCmd : string)
    (info : DeviceInfo) (line : string) : DeviceInfo :=
  let line := TrimSpace line in
  if String.eqb line "" || String.eqb line infoCmd
     || Contains line (PromptPattern (Commands (hardwareInfo d)))
  then info
  else
    match variant d with
    | VariantV2 | VariantV2Plus | VariantV2Plus4 | VariantSAA2 =>
        let info :=
          if Contains (ToLower line) "nanovna" || Contains (ToLower line) "saa2"
          then withModel info line else info in
        if Contains (ToLower line) "firmware" || Contains (ToLower line) "version"
        then match Split line ":"%char with
             | _ :: second :: _ => withFirmware info (TrimSpace second)
             | _ => info
             end
        else info
    | _ =>
        let info :=
          if String.eqb (Model info) (HardwareVariant_String (variant d))
          then withModel info line else info in
        let info :=
          if HasPrefix (ToLower line) "serial"
          then withSerialNum info (TrimSpace (TrimPrefix line "Serial:"))
          else info in
        if Contains line "v" && String.eqb (Firmware info) ""
        then match firmwareToken (Fields line) with
             | Some part => withFirmware info part
             | None => info
             end
        else info
    end.

Definition GetInfo (d : Device P) : (DeviceInfo * option error) * Device P :=
  let infoCmd := InfoCommand (Commands (hardwareInfo d)) in
  let '((resp, err), d1) := sendCommand infoCmd d in
  match err with
  | Some e => (({| Model := ""; Firmware := ""; SerialNum := "" |}, Some e), d1)
  | None =>
      let name := HardwareVariant_String (variant d1) in
      let info :=
        fold_left (infoLine d1 infoCmd) (Split resp newline)
                  {| Model := name; Firmware := ""; SerialNum := "" |} in
      let info :=
        if String.eqb (Model info) "" || String.eqb (Model info) name
        then withModel info (name ++ " (detected)") else info in
      ((info, None), d1)
  end.

(** ** The variant detector: [DetectVersion] *)

(** The chain of [if]s of [DetectVersion] that assigns [d.version] and
    [d.variant] from the probe response and the info text. *)
Definition classify (response info : string) : string * HardwareVariant :=
  if HasPrefix response "ch> " then
    ("v1",
     if Contains (ToLower info) "tinysa" then VariantTinysa
     else if Contains (ToLower info) "litevna" then VariantLiteVNA
     else VariantV1)
  else if HasPrefix response (crlf ++ "ch> ")
          || HasPrefix response (crlf ++ "?" ++ crlf ++ "ch> ") then
    ("vh",
     if Contains (ToLower info) "nanovna v1" then VariantV1 else VariantVH)
  else if HasPrefix response "2" || Contains response "2>" then
    ("v2",
     if Contains (ToLower info) "plus4" then VariantV2Plus4
     else if Contains (ToLower info) "plus" then VariantV2Plus
     else if Contains (ToLower info) "saa2" then VariantSAA2
     else VariantV2)
  else ("unknown", VariantUnknown).

Definition DetectVersion (d : Device P) : (string * option error) * Device P :=
  match portHandle d with
  | None => (("", Some ErrDeviceNotOpen), d)
  | Some p =>
      let '(_, p1) := port_Read p bufLen in              (* drain buffer *)
      let '(werr, p2) := port_Write p1 cr in
      match werr with
      | Some e => (("", Some (PortError e)), withPortHandle d (Some p2))
      | None =>
          let '((response, rerr), p3) := port_Read p2 bufLen in
          match rerr with
          | Some e => (("", Some (PortError e)), withPortHandle d (Some p3))
          | None =>
              let '((info, _), d1) :=
                sendCommand "info" (withPortHandle d (Some p3)) in
              let '(ver, v) := classify response info in
              let d2 := withIdentity d1 ver v (getHardwareInfo v) in
              if HardwareVariant_eqb v VariantUnknown
              then (("unknown", Some (ErrUnrecognizedResponse response)), d2)
              else ((ver, None), d2)
          end
      end
  end.

(** ** Calibration: the four stubs *)
Definition GetCalibration (d : Device P)
  : (CalibrationData * option error) * Device P :=
  ((EmptyCalibration, None), d).
Definition SetCalibration (cal : CalibrationData) (d : Device P)
  : option error * Device P := (None, d).
Definition SaveCalibration (slot : Z) (d : Device P)
  : option error * Device P := (None, d).
Definition LoadCalibration (slot : Z) (d : Device P)
  : option error * Device P := (None, d).

(** ** Opening a device

    The operating system is met in two calls: [serial.OpenPort], which
    gives an open port or the text of an error, and [os.Open], of which
    only success matters. *)

Variable serial_OpenPort : PortConfig -> P + string.
Variable os_Open : string -> bool.

(** The zero value of [HardwareInfo], which a freshly allocated
    [Device] holds. *)
Definition zeroHardwareInfo : HardwareInfo := {|
  Variant := VariantUnknown;
  Range := {| MinHz := 0; MaxHz := 0 |};
  MaxSweepPoints := 0;
  SupportedPorts := [];
  Commands := {| SweepCommand := ""; FreqCommand := ""; DataCommand := "";
                 InfoCommand := ""; VersionCommand := "";
                 CalibrationSave := ""; CalibrationLoad := "";
                 PromptPattern := "" |};
  Capabilities := {| HasS21 := false; HasTimeDomain := false;
                     HasCalibration := false; HasMultiplePorts := false;
                     HasGenerator := false; HasSpectrumMode := false |} |}.

(** [Open(port, custom...)]; a [nil] interface value is [None]. *)
Definition Open (port : string) (custom : list (option P))
  : option (Device P) * option error :=
  let device := {| Port := port; portHandle := None; config := None;
                   version := ""; variant := VariantUnknown;
                   hardwareInfo := zeroHardwareInfo |} in
  let opened :=
    match custom with
    | Some sp :: _ => inl (withPortHandle device (Some sp))
    | _ =>
        let c := {| Name := port; Baud := 9600;
                    ReadTimeout := time_Second * 5; Size := 8;
                    Parity := serial_ParityNone;
                    StopBits := serial_Stop1 |} in
        match serial_OpenPort c with
        | inr e => inr (PortError e)
        | inl s =>
            inl {| Port := Port device; portHandle := Some s;
                   config := Some c; version := version device;
                   variant := variant device;
                   hardwareInfo := hardwareInfo device |}
        end
    end in
  match opened with
  | inr e => (None, Some e)
  | inl device =>
      (* Initialize with unknown hardware until detection *)
      (Some (withIdentity device (version device) VariantUnknown
                          (getHardwareInfo VariantUnknown)), None)
  end.

(** The version label [OpenWithVariant] stores for a forced variant. *)
Definition versionLabel (v : HardwareVariant) : string :=
  match v with
  | VariantV1 => "v1"
  | VariantVH => "vh"
  | VariantV2 | VariantV2Plus | VariantV2Plus4 | VariantSAA2 => "v2"
  | VariantTinysa => "tinysa"
  | VariantLiteVNA => "litevna"
  | _ => "unknown"
  end.

Definition OpenWithVariant (port : string) (v : HardwareVariant)
  : option (Device P) * option error :=
  match Open port [] with
  | (Some device, None) =>
      (Some (withIdentity device (versionLabel v) v (getHardwareInfo v)), None)
  | (_, err) => (None, err)
  end.

(** [ListDevices]: the names COM1 .. COM20 that [os.Open] accepts. *)
Definition ListDevices : list string * option error :=
  let names := map (fun i => Sprintf "COM%d" [Z.of_nat i]) (seq 1 20) in
  match filter (fun portName => os_Open ("//./" ++ portName)) names with
  | [] => ([], Some ErrNoSerialPorts)
  | ports => (ports, None)
  end.

(** The loop of [AutoDetect] over the ports. *)
Fixpoint detectOn (ports : list string) : option (Device P) * option error :=
  match ports with
  | [] => (None, Some ErrNoDevicesFound)
  | port :: rest =>
      match Open port [] with
      | (Some device, None) =>
          let '((_, err), device') := DetectVersion device in
          match err with
          | Some _ => detectOn rest         (* device.Close(); continue *)
          | None => (Some device', None)
          end
      | _ => detectOn rest
      end
  end.

Definition AutoDetect : option (Device P) * option error :=
  let '(ports, err) := ListDevices in
  match err with
  | Some e => (None, Some (ErrListPorts e))
  | None => detectOn ports
  end.

End Operations.

(* ================================================================== *)
(** * Implementations of the interfaces *)

(** [MockSerialPort] of nanovna_test.go. *)
Record MockSerialPort : Type := {
  WriteBuffer : string;
  ReadBuffer : string;
  Closed : bool;
  ReadIndex : nat
}.

Definition Mock_Write (m : MockSerialPort) (p : string)
  : option string * MockSerialPort :=
  (None, {| WriteBuffer := WriteBuffer m ++ p; ReadBuffer := ReadBuffer m;
            Closed := Closed m; ReadIndex := ReadIndex m |}).

Definition Mock_Read (m : MockSerialPort) (len_p : nat)
  : (string * option string) * MockSerialPort :=
  if (String.length (ReadBuffer m) <=? ReadIndex m)%nat
  then (("", Some "timeout"), m)
  else
    let n := Nat.min len_p (String.length (ReadBuffer m) - ReadIndex m) in
    ((String.substring (ReadIndex m) n (ReadBuffer m), None),
     {| WriteBuffer := WriteBuffer m; ReadBuffer := ReadBuffer m;
        Closed := Closed m; ReadIndex := (ReadIndex m + n)%nat |}).

Definition Mock_Close (m : MockSerialPort) : option string * MockSerialPort :=
  (None, {| WriteBuffer := WriteBuffer m; ReadBuffer := ReadBuffer m;
            Closed := true; ReadIndex := ReadIndex m |}).

#[export] Instance MockSerialPort_SerialPort : SerialPort MockSerialPort := {
  port_Write := Mock_Write;
  port_Read := Mock_Read;
  port_Close := Mock_Close
}.

(** A port that plays a script, for running the model on the exchanges of
    a session: each [Read] gives the next result of [pending], and zero
    bytes without an error once the script is over; [Write] always succeeds
    and is logged.  [reads] counts the calls of [Read]. *)
Record ScriptedPort : Type := {
  pending : list (string * option string);
  written : list string;
  reads : nat
}.

Definition Scripted_Write (s : ScriptedPort) (p : string)
  : option string * ScriptedPort :=
  (None, {| pending := pending s; written := (written s ++ [p])%list;
            reads := reads s |}).

Definition Scripted_Read (s : ScriptedPort) (len_p : nat)
  : (string * option string) * ScriptedPort :=
  match pending s with
  | [] => (("", None),
           {| pending := []; written := written s; reads := S (reads s) |})
  | result :: rest =>
      (result,
       {| pending := rest; written := written s; reads := S (reads s) |})
  end.

Definition Scripted_Close (s : ScriptedPort) : option string * ScriptedPort :=
  (None, s).

#[export] Instance ScriptedPort_SerialPort : SerialPort ScriptedPort := {
  port_Write := Scripted_Write;
  port_Read := Scripted_Read;
  port_Close := Scripted_Close
}.

Definition script (results : list (string * option string)) : ScriptedPort :=
  {| pending := results; written := []; reads := 0 |}.

(** A device whose handle is [p], set to variant [v] as [OpenWithVariant]
    sets it. *)
Definition deviceOn {P : Type} (p : P) (v : HardwareVariant) : Device P :=
  {| Port := "COM1"; portHandle := Some p; config := None;
     version := versionLabel v; variant := v;
     hardwareInfo := getHardwareInfo v |}.

(** Exact decimal fractions [(m, k)], read [m / 10^k], standing for
    [float64] when the model is run on an example.  [parseDecimal] accepts
    an optional minus sign, digits and at most one point, a part of what
    [strconv.ParseFloat] accepts. *)
Definition digitOf (c : ascii) : option Z :=
  let n := nat_of_ascii c in
  if ((48 <=? n) && (n <=? 57))%nat then Some (Z.of_nat (n - 48)) else None.

Fixpoint parseDigits (s : string) (seenPoint any : bool) (m : Z) (k : nat)
  : option (Z * nat) :=
  match s with
  | EmptyString => if any then Some (m, k) else None
  | String c rest =>
      if Ascii.eqb c "."%char then
        if seenPoint then None else parseDigits rest true any m k
      else
        match digitOf c with
        | Some dgt =>
            parseDigits rest seenPoint true (10 * m + dgt)
                        (if seenPoint then S k else k)
        | None => None
        end
  end.

Definition parseDecimal (s : string) : option (Z * nat) :=
  match s with
  | String "-"%char rest =>
      option_map (fun '(m, k) => (- m, k)) (parseDigits rest false false 0 0%nat)
  | _ => parseDigits s false false 0 0%nat
  end.

#[export] Instance Decimal_Float64 : Float64 (Z * nat) := {
  ParseFloat := parseDecimal;
  float_zero := (0, 0%nat)
}.

(** ** Sessions on which the model is run *)

Definition emptyMock : MockSerialPort :=
  {| WriteBuffer := ""; ReadBuffer := ""; Closed := false; ReadIndex := 0 |}.

(** The device of [TestDevice_SetSweepConfig_Validation]:
    [&Device{hardwareInfo: getHardwareInfo(VariantV1), variant: VariantV1}]. *)
Definition v1TestDevice : Device MockSerialPort :=
  {| Port := ""; portHandle := None; config := None; version := "";
     variant := VariantV1; hardwareInfo := getHardwareInfo VariantV1 |}.

(** A V1 session on the mock with nothing to read: every exchange times
    out. *)
Definition v1SilentDevice : Device MockSerialPort := deviceOn emptyMock VariantV1.

(** A TinySA session answering a sweep with two frequencies and one S11
    sample. *)
Definition sweepScript : ScriptedPort :=
  script [("", None);
          ("frequencies" ++ crlf ++ "1000000" ++ crlf ++ "2000000" ++ crlf
           ++ "ch> ", None);
          ("", None);
          ("data 0" ++ crlf ++ "0.5 -0.2" ++ crlf ++ "ch> ", None)].

Definition tinysaSweepDevice : Device ScriptedPort :=
  deviceOn sweepScript VariantTinysa.

(** A TinySA session whose S11 response has no sample. *)
Definition tinysaNoDataDevice : Device ScriptedPort :=
  deviceOn (script [("", None);
                    ("frequencies" ++ crlf ++ "1000000" ++ crlf ++ "ch> ", None);
                    ("", None);
                    ("data 0" ++ crlf ++ "ch> ", None)])
           VariantTinysa.

(** A session after a command whose response is cut by a timeout. *)
Definition timeoutScript : ScriptedPort :=
  script [("", None); ("NanoVNA", None); ("", Some "read timeout")].

(** A session whose instrument stays silent for the ten attempts. *)
Definition silentScript : ScriptedPort := script [("", None)].

(** Probes: a V2 Plus4, a LiteVNA, and an instrument that answers
    nothing known. *)
Definition plus4Script : ScriptedPort :=
  script [("", None); ("2>", None); ("", None);
          ("info" ++ crlf ++ "NanoVNA V2 Plus4" ++ crlf ++ "ch> ", None)].

Definition litevnaScript : ScriptedPort :=
  script [("", None); ("ch> ", None); ("", None);
          ("info" ++ crlf ++ "LiteVNA 64" ++ crlf ++ "ch> ", None)].

Definition strangerScript : ScriptedPort :=
  script [("", None); ("hello", None); ("", None); ("ch> ", None)].

(** V1 sessions answering a sweep with two frequencies and two S11
    samples: on the first the S21 exchange fails at its first read, on the
    second it brings one sample. *)
Definition sweepHead : list (string * option string) :=
  [("", None);
   ("frequencies" ++ crlf ++ "1000000" ++ crlf ++ "2000000" ++ crlf ++ "ch> ", None);
   ("", None);
   ("data 0" ++ crlf ++ "0.5 -0.2" ++ crlf ++ "0.4 0.1" ++ crlf ++ "ch> ", None);
   ("", None)].

Definition v1S21FailDevice : Device ScriptedPort :=
  deviceOn (script (sweepHead ++ [("", Some "EOF")])%list) VariantV1.

Definition s21Short : string * option string :=
  ("data 1" ++ crlf ++ "0.9 0.0" ++ crlf ++ "ch> ", None).

Definition v1S21ShortDevice : Device ScriptedPort :=
  deviceOn (script (sweepHead ++ [s21Short])%list) VariantV1.

(** Sessions answering the info command: a NanoVNA-H whose first line is
    its display name, a V2 that names itself, and an instrument that only
    echoes the command. *)
Definition vhInfoResponse : string :=
  "info" ++ crlf ++ "NanoVNA-H" ++ crlf ++ "Board rev v3.4" ++ crlf ++ "ch> ".

Definition vhInfoDevice : Device ScriptedPort :=
  deviceOn (script [("", None); (vhInfoResponse, None)]) VariantVH.

Definition v2InfoResponse : string :=
  "info" ++ crlf ++ "NanoVNA v2" ++ crlf ++ "firmware: 1.2" ++ crlf ++ "2>".

Definition v2InfoDevice : Device ScriptedPort :=
  deviceOn (script [("", None); (v2InfoResponse, None)]) VariantV2.

Definition echoInfoResponse : string := "info" ++ crlf ++ "ch> ".

Definition echoInfoDevice : Device ScriptedPort :=
  deviceOn (script [("", None); (echoInfoResponse, None)]) VariantV1.

(** An operating system with one serial port, COM3, on which a LiteVNA
    answers. *)
Definition onlyCOM3 : string -> bool :=
  fun path => String.eqb path "//./COM3".

Definition liteVNAOnCOM3 : PortConfig -> ScriptedPort + string :=
  fun c => if String.eqb (Name c) "COM3" then inl litevnaScript
           else inr "The system cannot find the file specified.".

(** Four exchanges that fail: each command is drained for, written, and
    answered by a read error. *)
Definition fourFailures : list (string * option string) :=
  [("", None); ("", Some "EOF"); ("", None); ("", Some "EOF");
   ("", None); ("", Some "EOF"); ("", None); ("", Some "EOF")].

(** An SAA2 as the detector meets it: the prompt of the V2 family, an info
    text that names "SAA2"; afterwards the instrument fails every
    exchange. *)
Definition saa2Info : string * option string :=
  ("info" ++ crlf ++ "NanoVNA SAA2" ++ crlf ++ "ch> ", None).

Definition saa2Script : ScriptedPort :=
  script ([("", None); ("2>", None); ("", None); saa2Info]
          ++ fourFailures)%list.

(** An operating system without serial ports. *)
Definition noSerialPort : PortConfig -> ScriptedPort + string :=
  fun _ => inr "The system cannot find the file specified.".
Definition noFile : string -> bool := fun _ => false.

(* ================================================================== *)
(** * The vocabulary of the specification *)

(** The failure classes of the specification, read on the error values of
    the code. *)
Definition isErrNotConnected (e : option error) : bool :=
  match e with Some ErrDeviceNotOpen => true | _ => false end.

Definition isErrOutOfRange (e : option error) : bool :=
  match e with
  | Some (ErrStartBelowMin _ _ _) | Some (ErrStopAboveMax _ _ _)
  | Some (ErrTooManyPoints _ _ _) => true
  | _ => false
  end.

(** [ErrCommandFailed] wrapping the error [cause]. *)
Definition isErrCommandFailed (cause : error) (e : option error) : Prop :=
  e = Some (ErrSweepConfigV2 cause) \/ e = Some (ErrSweepConfig cause).

(** A [HardwareInfo] that the registry produced. *)
Definition fromRegistry (hi : HardwareInfo) : Prop :=
  exists v, hi = getHardwareInfo v.

(** The three bounds of the sweep configurator. *)
Definition withinBounds (hi : HardwareInfo) (startHz stopHz points : Z) : Prop :=
  MinHz (Range hi) <= startHz /\ stopHz <= MaxHz (Range hi)
  /\ points <= MaxSweepPoints hi.

(** The three variants that the [case] of [SetSweepConfig] lists, those
    whose prompt is "2>" in the registry; SAA2, which the rest of the code
    groups with them, is not among them. *)
Definition isV2Family (v : HardwareVariant) : bool :=
  match v with
  | VariantV2 | VariantV2Plus | VariantV2Plus4 => true
  | _ => false
  end.

(** The primary sweep command and the three scoped commands that follow it,
    as the specification lists them. *)
Definition primaryCommand (hi : HardwareInfo) (startHz stopHz points : Z)
  : string :=
  Sprintf (SweepCommand (Commands hi)) [startHz; stopHz; points].

Definition fallbackCommands (v : HardwareVariant) (startHz stopHz points : Z)
  : list string :=
  if isV2Family v
  then ["sweep start " ++ formatInt startHz; "sweep stop " ++ formatInt stopHz;
        "sweep points " ++ formatInt points]
  else ["start " ++ formatInt startHz; "stop " ++ formatInt stopHz;
        "points " ++ formatInt points].

(** The wrapper [SetSweepConfig] puts around the error of the primary
    command when every command failed. *)
Definition commandFailed (v : HardwareVariant) (cause : error) : error :=
  if isV2Family v then ErrSweepConfigV2 cause else ErrSweepConfig cause.

(** A probe response that the detector takes for the V2 family: neither
    of the rules for "ch> " applies and the response starts with "2" or
    contains "2>". *)
Definition isV2Probe (response : string) : bool :=
  negb (HasPrefix response "ch> ")
  && negb (HasPrefix response (crlf ++ "ch> ")
           || HasPrefix response (crlf ++ "?" ++ crlf ++ "ch> "))
  && (HasPrefix response "2" || Contains response "2>").

(** [text] contains [word], whatever the case of the letters of [text];
    [word] is in lower case. *)
Definition containsFold (text word : string) : bool :=
  Contains (ToLower text) word.

(** The lines of an info response that [GetInfo] looks at: trimmed, and
    neither empty, nor the echo of the command, nor a line with the prompt
    marker. *)
Definition skipsInfoLine (prompt infoCmd line : string) : bool :=
  String.eqb line "" || String.eqb line infoCmd || Contains line prompt.

Definition retainedInfoLines (prompt infoCmd resp : string) : list string :=
  filter (fun line => negb (skipsInfoLine prompt infoCmd line))
         (map TrimSpace (Split resp newline)).

(** The variants whose info response [GetInfo] reads in the V2 format. *)
Definition readsV2Info (v : HardwareVariant) : bool :=
  match v with
  | VariantV2 | VariantV2Plus | VariantV2Plus4 | VariantSAA2 => true
  | _ => false
  end.

(** A probe response of the NanoVNA-H kind: one of the two prefixes of the
    second rule of the detector, the first rule not applying. *)
Definition isVHProbe (response : string) : bool :=
  negb (HasPrefix response "ch> ")
  && (HasPrefix response (crlf ++ "ch> ")
      || HasPrefix response (crlf ++ "?" ++ crlf ++ "ch> ")).

(** A probe response that no rule of the detector matches. *)
Definition matchesNoRule (response : string) : bool :=
  negb (HasPrefix response "ch> ") && negb (isVHProbe response)
  && negb (isV2Probe response).

(** An info text without any of the words the detector refines on. *)
Definition plainInfo (info : string) : bool :=
  negb (containsFold info "tinysa") && negb (containsFold info "litevna")
  && negb (containsFold info "nanovna v1") && negb (containsFold info "plus4")
  && negb (containsFold info "plus") && negb (containsFold info "saa2").

(** The session invariant: the active [HardwareInfo] is the registry entry
    of the active variant. *)
Definition consistent {P : Type} (d : Device P) : Prop :=
  hardwareInfo d = getHardwareInfo (variant d).

(** An operation that leaves the variant and the [HardwareInfo] alone. *)
Definition sameIdentity {P : Type} (d d' : Device P) : Prop :=
  variant d' = variant d /\ hardwareInfo d' = hardwareInfo d.

Section Attempts.

Context {P : Type} {SP : SerialPort P}.

(** Commands exchanged in sequence until the channel accepts one: whether
    one was accepted, and the device afterwards. *)
Fixpoint tryCommands (cmds : list string) (d : Device P) : bool * Device P :=
  match cmds with
  | [] => (false, d)
  | cmd :: rest =>
      let '((_, err), d') := sendCommand cmd d in
      match err with
      | None => (true, d')
      | Some _ => tryCommands rest d'
      end
  end.

(** The next [n] reads of the port, as long as each succeeds and brings
    no chunk with the marker "ch>": the text they bring and the port
    afterwards. *)
Fixpoint quietReads (n : nat) (p : P) : option (string * P) :=
  match n with
  | O => Some ("", p)
  | S n' =>
      let '((chunk, err), p') := port_Read p bufLen in
      match err with
      | Some _ => None
      | None =>
          if Contains chunk "ch>" then None
          else match quietReads n' p' with
               | Some (text, p'') => Some (chunk ++ text, p'')
               | None => None
               end
      end
  end.

Context {F : Type} {FL : Float64 F}.

(** The number of lines of the frequency response that parse to a
    frequency, and of lines of a data response that parse to a sample. *)
Definition parsedFrequencyCount (freqCmd prompt resp : string) : nat :=
  List.length
    (filter (fun line =>
               match parseFrequencyLine (F:=F) freqCmd prompt line with
               | Some _ => true
               | None => false
               end)
            (Split resp newline)).

Definition parsedDataCount (prompt resp : string) : nat :=
  List.length
    (filter (fun line =>
               match parseDataLine (F:=F) prompt line with
               | Some _ => true
               | None => false
               end)
            (Split resp newline)).

(** A sequence of samples that holds the zero placeholder only. *)
Definition allZero (s : list (F * F)) : Prop :=
  Forall (fun sample => sample = complex_zero) s.

End Attempts.

(* ================================================================== *)
(** * Properties of the capability registry *)

(** C7.  For every declared variant the registry lookup is a total,
    deterministic function without an error path: it yields exactly one
    [HardwareInfo], whose minimum frequency is at most its maximum, whose
    point limit is positive and whose list of supported ports is not
    empty. *)
Theorem getHardwareInfo_total_well_formed :
  forall v : HardwareVariant,
    exists hi : HardwareInfo,
      getHardwareInfo v = hi
      /\ (forall hi', getHardwareInfo v = hi' -> hi' = hi)
      /\ MinHz (Range hi) <= MaxHz (Range hi)
      /\ 0 < MaxSweepPoints hi
      /\ SupportedPorts hi <> [].
Proof.
  intro v. exists (getHardwareInfo v).
  split; [reflexivity|].
  split; [intros hi' H; now rewrite H|].
  destruct v; cbn; repeat split; try lia; discriminate.
Qed.

(** C4, at the variants the switch misses.  The lookup of [VariantSAA2]
    and of [VariantLiteVNA] is the default entry: its [Variant] field is
    [VariantUnknown] and all its data are those of [VariantUnknown]; for
    the seven other variants the [Variant] field is the variant asked
    for. *)
Theorem getHardwareInfo_missing_cases :
  Variant (getHardwareInfo VariantLiteVNA) = VariantUnknown
  /\ getHardwareInfo VariantLiteVNA = getHardwareInfo VariantUnknown
  /\ Variant (getHardwareInfo VariantSAA2) = VariantUnknown
  /\ getHardwareInfo VariantSAA2 = getHardwareInfo VariantUnknown
  /\ Forall (fun v => Variant (getHardwareInfo v) = v)
            [VariantUnknown; VariantV1; VariantVH; VariantV2; VariantV2Plus;
             VariantV2Plus4; VariantTinysa].
Proof.
  repeat split. repeat constructor.
Qed.

(* ================================================================== *)
(** * The conversion [float64(int)] against the bounds of the registry *)

Lemma float64_of_int_cases (x : Z) :
  (Z.abs x < 2 ^ 53 /\ float64_of_int x = x)
  \/ (2 ^ 53 <= x /\ 2 ^ 53 <= float64_of_int x)
  \/ (x <= - 2 ^ 53 /\ float64_of_int x <= - 2 ^ 53).
Proof.
  unfold float64_of_int.
  set (a := Z.abs x).
  assert (Ha : 0 <= a) by apply Z.abs_nonneg.
  destruct (Z.leb_spec (Z.log2 a + 1) 53) as [Hb | Hb].
  - left. split; [|reflexivity].
    destruct (Z.eq_dec a 0) as [-> | Hne]; [reflexivity|].
    assert (Hlt : a < 2 ^ Z.succ (Z.log2 a)) by (apply Z.log2_spec; lia).
    assert (Hmono : 2 ^ Z.succ (Z.log2 a) <= 2 ^ 53)
      by (apply Z.pow_le_mono_r; lia).
    lia.
  - right.
    set (s := Z.log2 a + 1 - 53).
    assert (Hs : 1 <= s) by (unfold s; lia).
    assert (Hpos : 0 < a).
    { destruct (Z.eq_dec a 0) as [E | E]; [|lia].
      rewrite E in Hb. cbn in Hb. lia. }
    assert (Hlow : 2 ^ Z.log2 a <= a) by (apply Z.log2_spec; lia).
    assert (Hsplit : 2 ^ Z.log2 a = 2 ^ 52 * 2 ^ s).
    { rewrite <- Z.pow_add_r by lia. f_equal. unfold s. lia. }
    assert (H2s : 2 <= 2 ^ s).
    { change 2 with (2 ^ 1) at 1. apply Z.pow_le_mono_r; lia. }
    assert (Hq : 2 ^ 52 <= Z.shiftr a s).
    { rewrite Z.shiftr_div_pow2 by lia.
      apply Z.div_le_lower_bound; [lia|]. rewrite Z.mul_comm. lia. }
    set (q := Z.shiftr a s) in *.
    set (r := a - Z.shiftl q s).
    set (q' := if (Z.shiftl 1 (s - 1) <? r) || ((r =? Z.shiftl 1 (s - 1)) && Z.odd q)
               then q + 1 else q).
    assert (Hq' : 2 ^ 52 <= q') by (unfold q'; destruct (_ || _); lia).
    assert (Hbig : 2 ^ 53 <= Z.shiftl q' s).
    { rewrite Z.shiftl_mul_pow2 by lia.
      change (2 ^ 53) with (2 ^ 52 * 2).
      apply Z.mul_le_mono_nonneg; lia. }
    assert (Habs : 2 ^ 53 <= a) by lia.
    unfold a in Habs.
    destruct (Z.abs_spec x) as [[Hx E] | [Hx E]]; rewrite E in Habs.
    + left. split; [lia|]. rewrite Z.sgn_pos by lia. lia.
    + right. split; [lia|]. rewrite Z.sgn_neg by lia. lia.
Qed.

(** Against a minimum above [-2^53] and at most [2^53], comparing the
    converted start frequency is comparing the integer. *)
Lemma float64_below_min (x m : Z) :
  - 2 ^ 53 < m <= 2 ^ 53 ->
  (float64_of_int x <? m) = (x <? m).
Proof.
  intros Hm.
  destruct (float64_of_int_cases x) as [[Hx E] | [[Hx E] | [Hx E]]].
  - now rewrite E.
  - destruct (Z.ltb_spec (float64_of_int x) m), (Z.ltb_spec x m); try reflexivity; lia.
  - destruct (Z.ltb_spec (float64_of_int x) m), (Z.ltb_spec x m); try reflexivity; lia.
Qed.

Lemma float64_above_max (x m : Z) :
  - 2 ^ 53 <= m < 2 ^ 53 ->
  (m <? float64_of_int x) = (m <? x).
Proof.
  intros Hm.
  destruct (float64_of_int_cases x) as [[Hx E] | [[Hx E] | [Hx E]]].
  - now rewrite E.
  - destruct (Z.ltb_spec m (float64_of_int x)), (Z.ltb_spec m x); try reflexivity; lia.
  - destruct (Z.ltb_spec m (float64_of_int x)), (Z.ltb_spec m x); try reflexivity; lia.
Qed.

(** Every entry of the registry keeps its frequencies well inside the
    range where the conversion is exact. *)
Lemma fromRegistry_exact (hi : HardwareInfo) :
  fromRegistry hi ->
  0 < MinHz (Range hi) < 2 ^ 53 /\ 0 < MaxHz (Range hi) < 2 ^ 53.
Proof.
  intros [v ->]. destruct v; cbn; lia.
Qed.

(* ================================================================== *)
(** * Properties of the sweep configurator *)

Lemma append_empty_r (s : string) : s ++ "" = s.
Proof.
  induction s as [| c s IH]; [reflexivity|]. cbn. now rewrite IH.
Qed.

(** [Sprintf] on a template that ends in its only verb. *)
Lemma Sprintf_scoped (z : Z) :
  Sprintf "sweep start %d" [z] = "sweep start " ++ formatInt z
  /\ Sprintf "sweep stop %d" [z] = "sweep stop " ++ formatInt z
  /\ Sprintf "sweep points %d" [z] = "sweep points " ++ formatInt z
  /\ Sprintf "start %d" [z] = "start " ++ formatInt z
  /\ Sprintf "stop %d" [z] = "stop " ++ formatInt z
  /\ Sprintf "points %d" [z] = "points " ++ formatInt z.
Proof.
  cbn [Sprintf]. rewrite !append_empty_r. repeat split.
Qed.

Section ConfiguratorProperties.

Context {P : Type} {SP : SerialPort P}.

Lemma SetSweepConfig_validation (d : Device P) (startHz stopHz points : Z) :
  fromRegistry (hardwareInfo d) ->
  let hi := hardwareInfo d in
  SetSweepConfig startHz stopHz points d =
    if startHz <? MinHz (Range hi) then
      (Some (ErrStartBelowMin startHz (MinHz (Range hi)) (variant d)), d)
    else if MaxHz (Range hi) <? stopHz then
      (Some (ErrStopAboveMax stopHz (MaxHz (Range hi)) (variant d)), d)
    else if MaxSweepPoints hi <? points then
      (Some (ErrTooManyPoints points (MaxSweepPoints hi) (variant d)), d)
    else
      let '((_, err), d1) :=
        sendCommand (primaryCommand hi startHz stopHz points) d in
      match err with
      | None => (None, d1)
      | Some e =>
          let '(accepted, d') :=
            tryCommands (fallbackCommands (variant d) startHz stopHz points) d1 in
          (if accepted then None else Some (commandFailed (variant d) e), d')
      end.
Proof.
  intros Hreg hi.
  destruct (fromRegistry_exact _ Hreg) as [Hmin Hmax]. fold hi in Hmin, Hmax.
  unfold SetSweepConfig. fold hi.
  rewrite float64_below_min by lia.
  rewrite float64_above_max by lia.
  destruct (startHz <? MinHz (Range hi)); [reflexivity|].
  destruct (MaxHz (Range hi) <? stopHz); [reflexivity|].
  destruct (MaxSweepPoints hi <? points); [reflexivity|].
  unfold primaryCommand, fallbackCommands, commandFailed.
  destruct (Sprintf_scoped startHz) as (-> & _ & _ & -> & _).
  destruct (Sprintf_scoped stopHz) as (_ & -> & _ & _ & -> & _).
  destruct (Sprintf_scoped points) as (_ & _ & -> & _ & _ & ->).
  destruct (variant d); cbn [isV2Family tryCommands];
    destruct (sendCommand _ d) as [[resp [e|]] d1]; try reflexivity;
    destruct (sendCommand _ d1) as [[resp2 [e2|]] d2]; try reflexivity;
    destruct (sendCommand _ d2) as [[resp3 [e3|]] d3]; try reflexivity;
    destruct (sendCommand _ d3) as [[resp4 [e4|]] d4]; reflexivity.
Qed.

Lemma commandFailed_class (v : HardwareVariant) (e : error) :
  isErrOutOfRange (Some (commandFailed v e)) = false
  /\ isErrCommandFailed e (Some (commandFailed v e)).
Proof.
  unfold commandFailed, isErrCommandFailed.
  destruct (isV2Family v); cbn; auto.
Qed.

(** C1.  For a session whose [HardwareInfo] comes from the registry,
    [SetSweepConfig] returns an out-of-range error if and only if the
    start frequency is below the minimum, the stop frequency above the
    maximum or the point count above the limit; the bounds are checked in
    that order and the first one violated is reported; when all three
    hold and the channel accepts one of the commands tried, the call
    succeeds.  A session with the V1 entry rejects (10, 900000000, 101). *)
Theorem SetSweepConfig_out_of_range
    (d : Device P) (startHz stopHz points : Z) :
  fromRegistry (hardwareInfo d) ->
  let hi := hardwareInfo d in
  let result := fst (SetSweepConfig startHz stopHz points d) in
  (isErrOutOfRange result = true <->
     startHz < MinHz (Range hi) \/ MaxHz (Range hi) < stopHz
     \/ MaxSweepPoints hi < points)
  /\ (startHz < MinHz (Range hi) ->
      result = Some (ErrStartBelowMin startHz (MinHz (Range hi)) (variant d)))
  /\ (MinHz (Range hi) <= startHz -> MaxHz (Range hi) < stopHz ->
      result = Some (ErrStopAboveMax stopHz (MaxHz (Range hi)) (variant d)))
  /\ (MinHz (Range hi) <= startHz -> stopHz <= MaxHz (Range hi) ->
      MaxSweepPoints hi < points ->
      result = Some (ErrTooManyPoints points (MaxSweepPoints hi) (variant d)))
  /\ (withinBounds hi startHz stopHz points ->
      fst (tryCommands (primaryCommand hi startHz stopHz points
                        :: fallbackCommands (variant d) startHz stopHz points)
                       d) = true ->
      result = None)
  /\ (hi = getHardwareInfo VariantV1 ->
      (startHz, stopHz, points) = (10, 900000000, 101) ->
      isErrOutOfRange result = true).
Proof.
  intros Hreg hi result. subst result.
  rewrite (SetSweepConfig_validation d _ _ _ Hreg). fold hi.
  unfold withinBounds.
  destruct (Z.ltb_spec startHz (MinHz (Range hi))) as [H1 | H1].
  { cbn. repeat split; intros; try lia; auto. }
  destruct (Z.ltb_spec (MaxHz (Range hi)) stopHz) as [H2 | H2].
  { cbn. repeat split; intros; try lia; auto. }
  destruct (Z.ltb_spec (MaxSweepPoints hi) points) as [H3 | H3].
  { cbn. repeat split; intros; try lia; auto. }
  cbn [tryCommands].
  destruct (sendCommand (primaryCommand hi startHz stopHz points) d)
    as [[resp [e |]] d1].
  - destruct (tryCommands _ d1) as [accepted d'].
    destruct (commandFailed_class (variant d) e) as [Hclass _].
    cbn [fst].
    repeat split; intros; try lia.
    + destruct accepted; [discriminate|]. rewrite Hclass in *. discriminate.
    + destruct accepted; [reflexivity | discriminate].
    + match goal with
      | Hhi : hi = _, Hargs : (_, _, _) = _ |- _ =>
          injection Hargs as -> -> ->; rewrite Hhi in H1; cbn in H1; lia
      end.
  - cbn [fst].
    repeat split; intros; try lia; try discriminate; try reflexivity.
    match goal with
    | Hhi : hi = _, Hargs : (_, _, _) = _ |- _ =>
        injection Hargs as -> -> ->; rewrite Hhi in H1; cbn in H1; lia
    end.
Qed.

(** The fallback sequence as the switch of [SetSweepConfig] has it.  When
    the bounds hold and the primary sweep command fails on the channel,
    [SetSweepConfig] goes through the three scoped commands in sequence
    ("sweep start", "sweep stop", "sweep points" for the three variants of
    its [case], V2, V2Plus and V2Plus4; "start", "stop", "points" for every
    other variant, SAA2 among them) and stops at the first the channel
    accepts: the call then succeeds.  When all three fail as well, the
    error returned is the command-failed error that wraps the error of the
    primary command. *)
Theorem SetSweepConfig_fallback
    (d d1 : Device P) (startHz stopHz points : Z) (resp : string) (e : error) :
  fromRegistry (hardwareInfo d) ->
  withinBounds (hardwareInfo d) startHz stopHz points ->
  sendCommand (primaryCommand (hardwareInfo d) startHz stopHz points) d
    = ((resp, Some e), d1) ->
  let attempt :=
    tryCommands (fallbackCommands (variant d) startHz stopHz points) d1 in
  snd (SetSweepConfig startHz stopHz points d) = snd attempt
  /\ (fst attempt = true ->
      fst (SetSweepConfig startHz stopHz points d) = None)
  /\ (fst attempt = false ->
      isErrCommandFailed e (fst (SetSweepConfig startHz stopHz points d))).
Proof.
  intros Hreg (Hs & Ht & Hp) Hprimary attempt. subst attempt.
  rewrite (SetSweepConfig_validation d _ _ _ Hreg).
  destruct (Z.ltb_spec startHz (MinHz (Range (hardwareInfo d)))); [lia|].
  destruct (Z.ltb_spec (MaxHz (Range (hardwareInfo d))) stopHz); [lia|].
  destruct (Z.ltb_spec (MaxSweepPoints (hardwareInfo d)) points); [lia|].
  rewrite Hprimary.
  destruct (tryCommands _ d1) as [accepted d'].
  cbn [fst snd].
  repeat split; intros Hacc; subst accepted; [reflexivity|].
  apply commandFailed_class.
Qed.

End ConfiguratorProperties.

(** C8, on an SAA2 session.  SAA2 belongs to the V2 family: the detector
    finds it under the V2 probe and stores the version "v2", and
    [OpenWithVariant] and [GetInfo] list it with V2, V2Plus and V2Plus4.
    The [case] of [SetSweepConfig] leaves it out.  After a failed primary
    command an SAA2 session is sent "start", "stop" and "points", the
    commands of the other variants, and its failure is the generic error;
    a V2 session on the same port is sent "sweep start", "sweep stop" and
    "sweep points". *)
Theorem SetSweepConfig_SAA2_generic_fallback :
  let saa2 := snd (DetectVersion (deviceOn saa2Script VariantUnknown)) in
  let v2 := deviceOn (script fourFailures) VariantV2 in
  variant saa2 = VariantSAA2
  /\ version saa2 = "v2"
  /\ versionLabel VariantSAA2 = versionLabel VariantV2
  /\ readsV2Info VariantSAA2 = true
  /\ fst (SetSweepConfig 50000 900000000 101 saa2)
     = Some (ErrSweepConfig (PortError "EOF"))
  /\ option_map written (portHandle (snd (SetSweepConfig 50000 900000000 101 saa2)))
     = Some [cr; "info" ++ cr; "sweep 50000 900000000 101" ++ cr;
             "start 50000" ++ cr; "stop 900000000" ++ cr; "points 101" ++ cr]
  /\ fst (SetSweepConfig 50000 900000000 101 v2)
     = Some (ErrSweepConfigV2 (PortError "EOF"))
  /\ option_map written (portHandle (snd (SetSweepConfig 50000 900000000 101 v2)))
     = Some ["sweep 50000 900000000 101" ++ cr; "sweep start 50000" ++ cr;
             "sweep stop 900000000" ++ cr; "sweep points 101" ++ cr].
Proof.
  repeat split.
Qed.

(* ================================================================== *)
(** * Properties of the command channel *)

Lemma append_assoc_string (a b c : string) : (a ++ b) ++ c = a ++ (b ++ c).
Proof.
  induction a as [| x a IH]; [reflexivity|]. cbn. now rewrite IH.
Qed.

Section ChannelProperties.

Context {P : Type} {SP : SerialPort P}.

(** Reads that all succeed without the marker run the loop to its end,
    and the loop returns what they brought. *)
Lemma readLoop_quiet (n : nat) :
  forall (response : string) (p p' : P) (text : string),
    quietReads n p = Some (text, p') ->
    readLoop n response p = ((response ++ text, None), p').
Proof.
  induction n as [| n IH]; intros response p p' text Hq; cbn in Hq |- *.
  - injection Hq as <- <-. now rewrite append_empty_r.
  - destruct (port_Read p bufLen) as [[chunk [e |]] q]; [discriminate|].
    destruct (Contains chunk "ch>") eqn:Hmark; [discriminate|].
    destruct (quietReads n q) as [[rest q'] |] eqn:Hrest; [|discriminate].
    injection Hq as <- <-.
    destruct chunk as [| c chunk].
    + cbn. now apply IH.
    + cbn [String.length]. rewrite (IH _ _ _ _ Hrest).
      now rewrite append_assoc_string.
Qed.

(** C5.  [sendCommand] fails with the not-connected error when the device
    has no port handle.  In the read loop, a read error whose text
    contains "timeout" ends the loop without an error when some byte has
    been accumulated, the accumulated text being returned, and is
    returned as the error when nothing has been accumulated.  When all
    the attempts pass without an error and without the marker, the
    accumulated text is returned without an error. *)
Theorem sendCommand_error_policy :
  (forall (cmd : string) (d : Device P),
      portHandle d = None ->
      sendCommand cmd d = (("", Some ErrDeviceNotOpen), d)
      /\ isErrNotConnected (snd (fst (sendCommand cmd d))) = true)
  /\ (forall (remaining : nat) (response chunk e : string) (p p' : P),
        port_Read p bufLen = ((chunk, Some e), p') ->
        Contains e "timeout" = true ->
        (response <> "" ->
           readLoop (S remaining) response p = ((response, None), p'))
        /\ (response = "" ->
           readLoop (S remaining) response p = (("", Some (PortError e)), p')))
  /\ (forall (cmd chunk chunk' e : string) (d : Device P) (p p1 p2 p3 p4 : P)
             (drained : string * option string),
        portHandle d = Some p ->
        port_Read p bufLen = (drained, p1) ->
        port_Write p1 (cmd ++ cr) = (None, p2) ->
        port_Read p2 bufLen = ((chunk, None), p3) ->
        chunk <> "" -> Contains chunk "ch>" = false ->
        port_Read p3 bufLen = ((chunk', Some e), p4) ->
        Contains e "timeout" = true ->
        sendCommand cmd d = ((chunk, None), withPortHandle d (Some p4)))
  /\ (forall (cmd text : string) (d : Device P) (p p1 p2 p3 : P)
             (drained : string * option string),
        portHandle d = Some p ->
        port_Read p bufLen = (drained, p1) ->
        port_Write p1 (cmd ++ cr) = (None, p2) ->
        quietReads maxAttempts p2 = Some (text, p3) ->
        sendCommand cmd d = ((text, None), withPortHandle d (Some p3))).
Proof.
  split; [|split; [|split]].
  - intros cmd d Hnone. unfold sendCommand. rewrite Hnone. now split.
  - intros remaining response chunk e p p' Hread Htimeout.
    cbn [readLoop]. rewrite Hread, Htimeout.
    split; intros Hresp.
    + destruct response; [contradiction | reflexivity].
    + now subst response.
  - intros cmd chunk chunk' e d p p1 p2 p3 p4 drained
           Hd Hdrain Hwrite Hread Hne Hmark Hread' Htimeout.
    unfold sendCommand. rewrite Hd, Hdrain, Hwrite.
    unfold maxAttempts. cbn [readLoop]. rewrite Hread.
    destruct chunk as [| c chunk]; [contradiction|].
    cbn [String.length Nat.ltb Nat.leb]. rewrite Hmark.
    rewrite Hread', Htimeout. reflexivity.
  - intros cmd text d p p1 p2 p3 drained Hd Hdrain Hwrite Hquiet.
    unfold sendCommand. rewrite Hd, Hdrain, Hwrite.
    now rewrite (readLoop_quiet _ "" _ _ _ Hquiet).
Qed.

End ChannelProperties.

(** C3, on a session that shows the divergence.  The read loop looks for
    the literal "ch>" in the chunk just read, whatever the prompt marker of
    the active variant.  A V2 session (marker "2>") whose response ends in
    "2>" does not stop at the marker: the port sees its 11 reads, the drain
    and all ten attempts.  A V1 session whose marker arrives split over two
    chunks runs all ten attempts as well.  A V2 session stops at the first
    attempt on a chunk with "ch>", though the text has no "2>". *)
Theorem sendCommand_prompt_marker_literal :
  let v2 := deviceOn (script [("", None); ("NanoVNA v2" ++ crlf ++ "2>", None)])
                     VariantV2 in
  let v1 := deviceOn (script [("", None); ("NanoVNA v1" ++ crlf ++ "c", None);
                              ("h> ", None)])
                     VariantV1 in
  let v2' := deviceOn (script [("", None); ("ch> ", None)]) VariantV2 in
  PromptPattern (Commands (hardwareInfo v2)) = "2>"
  /\ fst (sendCommand "info" v2) = ("NanoVNA v2" ++ crlf ++ "2>", None)
  /\ option_map reads (portHandle (snd (sendCommand "info" v2))) = Some 11%nat
  /\ PromptPattern (Commands (hardwareInfo v1)) = "ch>"
  /\ fst (sendCommand "info" v1) = ("NanoVNA v1" ++ crlf ++ "ch> ", None)
  /\ option_map reads (portHandle (snd (sendCommand "info" v1))) = Some 11%nat
  /\ fst (sendCommand "info" v2') = ("ch> ", None)
  /\ Contains "ch> " (PromptPattern (Commands (hardwareInfo v2'))) = false
  /\ option_map reads (portHandle (snd (sendCommand "info" v2'))) = Some 2%nat.
Proof.
  repeat split.
Qed.

(* ================================================================== *)
(** * Properties of the sweep data parser *)

Section ParserProperties.

Context {P : Type} {SP : SerialPort P} {F : Type} {FL : Float64 F}.

Lemma parseFrequencies_length (freqCmd prompt : string) (lines : list string) :
  forall acc : list F,
    List.length (parseFrequencies freqCmd prompt lines acc)
    = (List.length acc
       + List.length
           (filter (fun line =>
                      match parseFrequencyLine (F:=F) freqCmd prompt line with
                      | Some _ => true
                      | None => false
                      end) lines))%nat.
Proof.
  induction lines as [| line rest IH]; intros acc; cbn.
  - lia.
  - destruct (parseFrequencyLine freqCmd prompt line); rewrite IH.
    + rewrite length_app. cbn. lia.
    + reflexivity.
Qed.

Lemma parseData_length (prompt : string) (lines : list string) :
  forall acc : list (F * F),
    List.length (parseData prompt lines acc)
    = (List.length acc
       + List.length
           (filter (fun line =>
                      match parseDataLine (F:=F) prompt line with
                      | Some _ => true
                      | None => false
                      end) lines))%nat.
Proof.
  induction lines as [| line rest IH]; intros acc; cbn.
  - lia.
  - destruct (parseDataLine prompt line); rewrite IH.
    + rewrite length_app. cbn. lia.
    + reflexivity.
Qed.

(** The padding loops append zeros only. *)
Lemma appendZeros_repeat (times : nat) :
  forall s : list (F * F),
    appendZeros times s = (s ++ repeat complex_zero times)%list.
Proof.
  induction times as [| times IH]; intros s; cbn.
  - now rewrite app_nil_r.
  - rewrite IH, <- app_assoc. reflexivity.
Qed.

Lemma padZeros_length (n : nat) (s : list (F * F)) :
  List.length (padZeros n s) = Nat.max n (List.length s).
Proof.
  unfold padZeros. rewrite appendZeros_repeat, length_app, repeat_length. lia.
Qed.

Lemma padZeros_allZero (n : nat) (s : list (F * F)) :
  allZero s -> allZero (padZeros n s).
Proof.
  intros Hs. unfold padZeros, allZero. rewrite appendZeros_repeat.
  apply Forall_app. split; [exact Hs|].
  apply Forall_forall. intros x Hx. now apply repeat_spec in Hx.
Qed.

Lemma firstn_allZero (n : nat) (s : list (F * F)) :
  allZero s -> allZero (firstn n s).
Proof.
  unfold allZero. intros Hs.
  rewrite <- (firstn_skipn n s) in Hs.
  now apply Forall_app in Hs.
Qed.

(** What [RunSweep] returns once the exchanges of the frequencies and of
    S11 have succeeded; [s21raw] is the S21 sequence before the padding,
    empty when the capability set has no S21. *)
Lemma RunSweep_after_exchanges
    (d d1 d2 : Device P) (freqResp s11Resp : string) :
  let hi := hardwareInfo d in
  sendCommand (FreqCommand (Commands hi)) d = ((freqResp, None), d1) ->
  sendCommand (Sprintf (DataCommand (Commands hi)) [0]) d1
    = ((s11Resp, None), d2) ->
  exists (s21raw : list (F * F)) (d3 : Device P),
    (HasS21 (Capabilities hi) = false -> s21raw = [])
    /\ RunSweep d =
       let frequencies :=
         parseFrequencies (FreqCommand (Commands hi))
           (PromptPattern (Commands hi)) (Split freqResp newline) [] in
       let s11 :=
         parseData (PromptPattern (Commands hi)) (Split s11Resp newline) [] in
       let s21 := padZeros (List.length s11) s21raw in
       if (List.length frequencies =? 0)%nat || (List.length s11 =? 0)%nat
       then ((emptySweep, Some ErrNoValidData), d3)
       else
         let minLen :=
           if (List.length s11 <? List.length frequencies)%nat
           then List.length s11 else List.length frequencies in
         (({| Frequencies := firstn minLen frequencies;
              S11 := firstn minLen s11;
              S21 := if (minLen <=? List.length s21)%nat
                     then firstn minLen s21 else padZeros minLen s21 |},
           None), d3).
Proof.
  intros hi Hfreq Hs11.
  unfold RunSweep. fold hi. rewrite Hfreq, Hs11.
  destruct (HasS21 (Capabilities hi) && IsPortSupported d2 "S21") eqn:Hcap.
  - destruct (sendCommand (Sprintf (DataCommand (Commands hi)) [1]) d2)
      as [[s21Resp [e |]] d3].
    + eexists _, d3. split; [|reflexivity].
      intros Hno. rewrite Hno in Hcap. discriminate.
    + eexists _, d3. split; [|reflexivity].
      intros Hno. rewrite Hno in Hcap. discriminate.
  - exists [], d2. split; reflexivity.
Qed.

Lemma RunSweep_success_exchanges (d d' : Device P) (data : SweepData F) :
  RunSweep d = ((data, None), d') ->
  let hi := hardwareInfo d in
  exists (freqResp s11Resp : string) (d1 d2 : Device P),
    sendCommand (FreqCommand (Commands hi)) d = ((freqResp, None), d1)
    /\ sendCommand (Sprintf (DataCommand (Commands hi)) [0]) d1
       = ((s11Resp, None), d2).
Proof.
  intros Hrun hi. unfold RunSweep in Hrun. fold hi in Hrun.
  destruct (sendCommand (FreqCommand (Commands hi)) d)
    as [[freqResp [e |]] d1] eqn:Hfreq; [discriminate|].
  destruct (sendCommand (Sprintf (DataCommand (Commands hi)) [0]) d1)
    as [[s11Resp [e |]] d2] eqn:Hs11; [discriminate|].
  exists freqResp, s11Resp, d1, d2. split; [reflexivity | exact Hs11].
Qed.

(** C2.  Whenever [RunSweep] returns without an error, the exchanges of
    the frequencies and of S11 have succeeded and the three sequences of
    the result have one length: the smaller of the number of frequency
    lines and the number of S11 lines that parsed, which is not zero.
    When the two exchanges succeed and no frequency line or no S11 line
    parsed, [RunSweep] returns no data but the no-data error. *)
Theorem RunSweep_lengths :
  (forall (d d' : Device P) (data : SweepData F),
      RunSweep d = ((data, None), d') ->
      let hi := hardwareInfo d in
      exists (freqResp s11Resp : string) (d1 d2 : Device P),
        sendCommand (FreqCommand (Commands hi)) d = ((freqResp, None), d1)
        /\ sendCommand (Sprintf (DataCommand (Commands hi)) [0]) d1
           = ((s11Resp, None), d2)
        /\ let n :=
             Nat.min
               (parsedFrequencyCount (F:=F) (FreqCommand (Commands hi))
                  (PromptPattern (Commands hi)) freqResp)
               (parsedDataCount (F:=F) (PromptPattern (Commands hi)) s11Resp) in
           List.length (Frequencies data) = n
           /\ List.length (S11 data) = n
           /\ List.length (S21 data) = n
           /\ (0 < n)%nat)
  /\ (forall (d d1 d2 : Device P) (freqResp s11Resp : string),
        let hi := hardwareInfo d in
        sendCommand (FreqCommand (Commands hi)) d = ((freqResp, None), d1) ->
        sendCommand (Sprintf (DataCommand (Commands hi)) [0]) d1
          = ((s11Resp, None), d2) ->
        parsedFrequencyCount (F:=F) (FreqCommand (Commands hi))
          (PromptPattern (Commands hi)) freqResp = 0%nat
        \/ parsedDataCount (F:=F) (PromptPattern (Commands hi)) s11Resp = 0%nat ->
        fst (RunSweep d) = (emptySweep, Some ErrNoValidData)).
Proof.
  split.
  - intros d d' data Hrun hi.
    destruct (RunSweep_success_exchanges _ _ _ Hrun)
      as (freqResp & s11Resp & d1 & d2 & Hfreq & Hs11).
    exists freqResp, s11Resp, d1, d2. fold hi in Hfreq, Hs11.
    split; [exact Hfreq|]. split; [exact Hs11|].
    destruct (RunSweep_after_exchanges d d1 d2 _ _ Hfreq Hs11)
      as (s21raw & d3 & _ & Heq).
    fold hi in Heq. rewrite Heq in Hrun. clear Heq.
    unfold parsedFrequencyCount, parsedDataCount.
    cbv zeta in Hrun.
    pose proof (parseFrequencies_length (FreqCommand (Commands hi))
                  (PromptPattern (Commands hi)) (Split freqResp newline) [])
      as Hnf.
    pose proof (parseData_length (PromptPattern (Commands hi))
                  (Split s11Resp newline) []) as Hns.
    cbn [List.length Nat.add] in Hnf, Hns. rewrite <- Hnf, <- Hns.
    set (frequencies := parseFrequencies _ _ _ _) in *.
    set (s11 := parseData _ _ _) in *.
    pose proof (padZeros_length (List.length s11) s21raw) as Hpad.
    set (s21 := padZeros (List.length s11) s21raw) in *.
    destruct ((List.length frequencies =? 0)%nat || (List.length s11 =? 0)%nat)
      eqn:Hempty; [discriminate|].
    apply orb_false_elim in Hempty. destruct Hempty as [Hf0 Hs0].
    apply Nat.eqb_neq in Hf0. apply Nat.eqb_neq in Hs0.
    injection Hrun as <- _. cbn [Frequencies S11 S21].
    destruct (Nat.ltb_spec (List.length s11) (List.length frequencies)) as [Hlt | Hge].
    + destruct (Nat.leb_spec (List.length s11) (List.length s21)) as [Hle | Hgt];
        [|lia].
      rewrite !length_firstn. lia.
    + destruct (Nat.leb_spec (List.length frequencies) (List.length s21))
        as [Hle | Hgt]; [|lia].
      rewrite !length_firstn. lia.
  - intros d d1 d2 freqResp s11Resp hi Hfreq Hs11 Hzero.
    destruct (RunSweep_after_exchanges d d1 d2 _ _ Hfreq Hs11)
      as (s21raw & d3 & _ & Heq).
    fold hi in Heq. rewrite Heq. clear Heq. cbv zeta.
    unfold parsedFrequencyCount, parsedDataCount in Hzero.
    pose proof (parseFrequencies_length (FreqCommand (Commands hi))
                  (PromptPattern (Commands hi)) (Split freqResp newline) [])
      as Hnf.
    pose proof (parseData_length (PromptPattern (Commands hi))
                  (Split s11Resp newline) []) as Hns.
    cbn [List.length Nat.add] in Hnf, Hns. rewrite <- Hnf, <- Hns in Hzero.
    destruct Hzero as [Hz | Hz]; rewrite Hz; cbn [Nat.eqb orb fst].
    + reflexivity.
    + now rewrite orb_true_r.
Qed.

(** C9.  When the active capability set has no S21, every entry of the
    S21 sequence of a successful [RunSweep] is the zero placeholder. *)
Theorem RunSweep_no_S21_zeros (d d' : Device P) (data : SweepData F) :
  HasS21 (Capabilities (hardwareInfo d)) = false ->
  RunSweep d = ((data, None), d') ->
  allZero (S21 data).
Proof.
  intros Hno Hrun.
  destruct (RunSweep_success_exchanges _ _ _ Hrun)
    as (freqResp & s11Resp & d1 & d2 & Hfreq & Hs11).
  destruct (RunSweep_after_exchanges d d1 d2 _ _ Hfreq Hs11)
    as (s21raw & d3 & Hraw & Heq).
  rewrite (Hraw Hno) in Heq. rewrite Heq in Hrun. clear Heq.
  cbv zeta in Hrun.
  destruct (_ || _) in Hrun; [discriminate|].
  injection Hrun as <- _. cbn [S21].
  assert (Hpad : forall n, allZero (padZeros (F:=F) n [])).
  { intros n. apply padZeros_allZero. constructor. }
  destruct (_ <=? _)%nat.
  - apply firstn_allZero, Hpad.
  - apply padZeros_allZero, Hpad.
Qed.

End ParserProperties.

(* ================================================================== *)
(** * Properties of the variant detector *)

Section DetectorProperties.

Context {P : Type} {SP : SerialPort P}.

Lemma sendCommand_sameIdentity (cmd : string) (d : Device P) :
  sameIdentity d (snd (sendCommand cmd d)).
Proof.
  unfold sendCommand, sameIdentity.
  destruct (portHandle d) as [p |]; [|now split].
  destruct (port_Read p bufLen) as [drained p1].
  destruct (port_Write p1 (cmd ++ cr)) as [[e |] p2]; [now split|].
  destruct (readLoop maxAttempts "" p2) as [result p3]. now split.
Qed.

(** What [DetectVersion] does once the probe has been read and the info
    exchange has returned. *)
Lemma DetectVersion_classified
    (d d1 : Device P) (p p1 p2 p3 : P) (drained : string * option string)
    (response info : string) (ierr : option error) :
  portHandle d = Some p ->
  port_Read p bufLen = (drained, p1) ->
  port_Write p1 cr = (None, p2) ->
  port_Read p2 bufLen = ((response, None), p3) ->
  sendCommand "info" (withPortHandle d (Some p3)) = ((info, ierr), d1) ->
  let ver := fst (classify response info) in
  let v := snd (classify response info) in
  DetectVersion d =
    ((if HardwareVariant_eqb v VariantUnknown
      then ("unknown", Some (ErrUnrecognizedResponse response))
      else (ver, None)),
     withIdentity d1 ver v (getHardwareInfo v)).
Proof.
  intros Hd Hdrain Hwrite Hread Hinfo ver v. subst ver v.
  unfold DetectVersion. rewrite Hd, Hdrain, Hwrite, Hread, Hinfo.
  destruct (classify response info) as [ver v]. cbn [fst snd].
  now destruct (HardwareVariant_eqb v VariantUnknown).
Qed.

(** C6, amended.  Once the probe has been read and the info exchange has
    returned: for a V2-family probe response, an info text that contains
    "plus" and "plus4", in any case, gives [VariantV2Plus4]; for a probe
    response that starts with "ch> ", an info text that contains
    "litevna" and does not contain "tinysa", in any case, gives
    [VariantLiteVNA]. *)
Theorem DetectVersion_specificity
    (d d1 : Device P) (p p1 p2 p3 : P) (drained : string * option string)
    (response info : string) (ierr : option error) :
  portHandle d = Some p ->
  port_Read p bufLen = (drained, p1) ->
  port_Write p1 cr = (None, p2) ->
  port_Read p2 bufLen = ((response, None), p3) ->
  sendCommand "info" (withPortHandle d (Some p3)) = ((info, ierr), d1) ->
  (isV2Probe response = true ->
   containsFold info "plus" = true -> containsFold info "plus4" = true ->
   variant (snd (DetectVersion d)) = VariantV2Plus4
   /\ variant (snd (DetectVersion d)) <> VariantV2Plus
   /\ fst (DetectVersion d) = ("v2", None))
  /\ (HasPrefix response "ch> " = true ->
      containsFold info "litevna" = true ->
      containsFold info "tinysa" = false ->
      variant (snd (DetectVersion d)) = VariantLiteVNA
      /\ fst (DetectVersion d) = ("v1", None)).
Proof.
  intros Hd Hdrain Hwrite Hread Hinfo.
  rewrite (DetectVersion_classified _ _ _ _ _ _ _ _ _ _ Hd Hdrain Hwrite Hread Hinfo).
  unfold containsFold, isV2Probe, classify.
  split.
  - intros Hprobe _ Hplus4.
    apply andb_prop in Hprobe. destruct Hprobe as [Hprobe H2].
    apply andb_prop in Hprobe. destruct Hprobe as [Hch Hvh].
    apply negb_true_iff in Hch. apply negb_true_iff in Hvh.
    rewrite Hch, Hvh, H2, Hplus4. cbn. repeat split. discriminate.
  - intros Hch Hlite Htiny.
    rewrite Hch, Htiny, Hlite. cbn. now split.
Qed.

End DetectorProperties.

(** C6 as stated fails on an info text that names both instruments: the
    probe response is exactly "ch> ", the info text contains "litevna", and
    the detector settles on [VariantTinysa], the rule it tries first. *)
Lemma DetectVersion_litevna_after_tinysa :
  let info := "info" ++ crlf ++ "TinySA mode of LiteVNA" ++ crlf ++ "ch> " in
  let d := deviceOn (script [("", None); ("ch> ", None); ("", None); (info, None)])
                    VariantUnknown in
  HasPrefix "ch> " "ch> " = true
  /\ containsFold info "litevna" = true
  /\ classify "ch> " info = ("v1", VariantTinysa)
  /\ option_map written (portHandle (snd (DetectVersion d)))
     = Some [cr; "info" ++ cr]
  /\ fst (DetectVersion d) = ("v1", None)
  /\ variant (snd (DetectVersion d)) = VariantTinysa
  /\ variant (snd (DetectVersion d)) <> VariantLiteVNA.
Proof.
  repeat split. discriminate.
Qed.

(* ================================================================== *)
(** * The session invariant *)

Section InvariantProperties.

Context {P : Type} {SP : SerialPort P} {F : Type} {FL : Float64 F}.
Variable serial_OpenPort : PortConfig -> P + string.
Variable os_Open : string -> bool.

Lemma sameIdentity_refl (d : Device P) : sameIdentity d d.
Proof. now split. Qed.

Lemma sameIdentity_trans (a b c : Device P) :
  sameIdentity a b -> sameIdentity b c -> sameIdentity a c.
Proof. unfold sameIdentity. intros [-> ->] [-> ->]. now split. Qed.

Lemma sameIdentity_consistent (d d' : Device P) :
  sameIdentity d d' -> consistent d -> consistent d'.
Proof. unfold sameIdentity, consistent. intros [-> ->]. auto. Qed.

(** Destructs the next exchange and records that it kept the identity. *)
Ltac step_exchange :=
  match goal with
  | |- context [sendCommand ?cmd ?x] =>
      let H := fresh "Hsame" in
      pose proof (sendCommand_sameIdentity cmd x) as H;
      destruct (sendCommand cmd x) as [[? [? |]] ?]; cbn [snd] in H
  end.

Ltac close_identity :=
  cbn [snd];
  repeat match goal with
         | H : sameIdentity _ _ |- _ => destruct H as [? ?]
         end;
  split; congruence.

Lemma SetSweepConfig_sameIdentity (startHz stopHz points : Z) (d : Device P) :
  sameIdentity d (snd (SetSweepConfig startHz stopHz points d)).
Proof.
  unfold SetSweepConfig.
  destruct (_ <? _); [apply sameIdentity_refl|].
  destruct (_ <? _); [apply sameIdentity_refl|].
  destruct (_ <? _); [apply sameIdentity_refl|].
  destruct (variant d) eqn:Hv;
    repeat step_exchange; close_identity.
Qed.

Lemma RunSweep_sameIdentity (d : Device P) :
  sameIdentity d (snd (RunSweep (F:=F) d)).
Proof.
  unfold RunSweep.
  step_exchange; [close_identity|].
  step_exchange; [close_identity|].
  destruct (HasS21 _ && IsPortSupported _ "S21").
  - step_exchange; destruct (_ || _); close_identity.
  - destruct (_ || _); close_identity.
Qed.

Lemma GetInfo_sameIdentity (d : Device P) :
  sameIdentity d (snd (GetInfo d)).
Proof.
  unfold GetInfo. step_exchange; close_identity.
Qed.

Lemma Close_sameIdentity (d : Device P) : sameIdentity d (snd (Close d)).
Proof.
  unfold Close. destruct (portHandle d) as [p |]; [|apply sameIdentity_refl].
  destruct (port_Close p). now split.
Qed.

(** [DetectVersion] either returns early, the identity untouched, or
    classifies and installs the registry entry of the variant found. *)
Lemma DetectVersion_cases (d : Device P) :
  (sameIdentity d (snd (DetectVersion d))
   /\ exists e, snd (fst (DetectVersion d)) = Some e
                /\ forall response, e <> ErrUnrecognizedResponse response)
  \/ (consistent (snd (DetectVersion d))
      /\ (snd (fst (DetectVersion d)) = None
          /\ variant (snd (DetectVersion d)) <> VariantUnknown
          \/ (exists response,
                 snd (fst (DetectVersion d))
                 = Some (ErrUnrecognizedResponse response))
             /\ variant (snd (DetectVersion d)) = VariantUnknown)).
Proof.
  unfold DetectVersion.
  destruct (portHandle d) as [p |] eqn:Hd.
  2:{ left. split; [apply sameIdentity_refl|].
      eexists; split; [reflexivity | discriminate]. }
  destruct (port_Read p bufLen) as [drained p1].
  destruct (port_Write p1 cr) as [[e |] p2].
  { left. split; [now split|].
    eexists; split; [reflexivity | discriminate]. }
  destruct (port_Read p2 bufLen) as [[probe [e |]] p3].
  { left. split; [now split|].
    eexists; split; [reflexivity | discriminate]. }
  destruct (sendCommand "info" _) as [[info ierr] d1].
  destruct (classify probe info) as [ver v].
  right.
  destruct v; cbn; (split; [reflexivity|]);
    solve [ left; split; [reflexivity | discriminate]
          | right; split; [eexists; reflexivity | reflexivity] ].
Qed.

Lemma Open_identity (port : string) (custom : list (option P)) (d : Device P) :
  fst (Open serial_OpenPort port custom) = Some d ->
  variant d = VariantUnknown /\ consistent d.
Proof.
  unfold Open.
  destruct custom as [| [sp |] rest]; cbn.
  - destruct (serial_OpenPort _); cbn; [|discriminate].
    intros [= <-]. now split.
  - intros [= <-]. now split.
  - destruct (serial_OpenPort _); cbn; [|discriminate].
    intros [= <-]. now split.
Qed.

Lemma detectOn_consistent (ports : list string) (d : Device P) :
  fst (detectOn serial_OpenPort ports) = Some d -> consistent d.
Proof.
  induction ports as [| port rest IH]; cbn; [discriminate|].
  destruct (Open serial_OpenPort port []) as [[device |] [e |]]; try exact IH.
  destruct (DetectVersion_cases device) as [[_ (e & He & _)] | [Hcons Hres]];
    destruct (DetectVersion device) as [[ver err] device']; cbn [fst snd] in *.
  - rewrite He. exact IH.
  - destruct err; [exact IH|]. cbn. now intros [= <-].
Qed.

(** C10.  The active [HardwareInfo] is the registry entry of the active
    variant after every operation that assigns them: [Open] leaves the
    variant Unknown, [OpenWithVariant] the variant forced, and
    [DetectVersion] the variant it resolved, on success and when it fails
    with the unrecognized-response error, where the session is left at
    Unknown with the default entry whatever it was before; an early
    failure of [DetectVersion] and every other operation ([SetPortHandle],
    [Close], [sendCommand], [SetSweepConfig], [RunSweep], [GetInfo], the
    calibration stubs) leave both fields as they were, and [AutoDetect]
    returns a session where the invariant holds. *)
Theorem session_identity_invariant :
  (forall port custom d,
      fst (Open serial_OpenPort port custom) = Some d ->
      variant d = VariantUnknown /\ consistent d)
  /\ (forall port v d,
        fst (OpenWithVariant serial_OpenPort port v) = Some d ->
        variant d = v /\ consistent d)
  /\ (forall d : Device P,
        let d' := snd (DetectVersion d) in
        let err := snd (fst (DetectVersion d)) in
        (err = None -> consistent d' /\ variant d' <> VariantUnknown)
        /\ (forall response,
              err = Some (ErrUnrecognizedResponse response) ->
              variant d' = VariantUnknown
              /\ hardwareInfo d' = getHardwareInfo VariantUnknown)
        /\ (forall e,
              err = Some e ->
              (forall response, e <> ErrUnrecognizedResponse response) ->
              sameIdentity d d')
        /\ (consistent d -> consistent d'))
  /\ (forall (d : Device P) sp cmd startHz stopHz points cal slot,
        sameIdentity d (SetPortHandle sp d)
        /\ sameIdentity d (snd (Close d))
        /\ sameIdentity d (snd (sendCommand cmd d))
        /\ sameIdentity d (snd (SetSweepConfig startHz stopHz points d))
        /\ sameIdentity d (snd (RunSweep (F:=F) d))
        /\ sameIdentity d (snd (GetInfo d))
        /\ sameIdentity d (snd (GetCalibration d))
        /\ sameIdentity d (snd (SetCalibration cal d))
        /\ sameIdentity d (snd (SaveCalibration slot d))
        /\ sameIdentity d (snd (LoadCalibration slot d)))
  /\ (forall d,
        fst (AutoDetect serial_OpenPort os_Open) = Some d -> consistent d).
Proof.
  split; [|split; [|split; [|split]]].
  - apply Open_identity.
  - intros port v d. unfold OpenWithVariant.
    destruct (Open serial_OpenPort port []) as [[device |] [e |]]; cbn;
      try discriminate.
    intros [= <-]. now split.
  - intros d d' err. subst d' err.
    destruct (DetectVersion_cases d)
      as [[Hsame (e & He & Hne)] | [Hcons [[Hok Hv] | [[resp Hbad] Hv]]]].
    + rewrite He. split; [discriminate|]. split; [|split].
      * intros response [= ->]. now elim (Hne response).
      * intros e' [= <-] _. exact Hsame.
      * now apply sameIdentity_consistent.
    + rewrite Hok. split; [now split|]. split; [|split]; try discriminate.
      intros _. exact Hcons.
    + rewrite Hbad. split; [discriminate|]. split; [|split].
      * intros _ _. unfold consistent in Hcons. now rewrite Hcons, Hv.
      * intros e' [= <-] Hne. now elim (Hne resp).
      * intros _. exact Hcons.
  - intros d sp cmd startHz stopHz points cal slot.
    repeat split; try reflexivity.
    + apply Close_sameIdentity.
    + apply Close_sameIdentity.
    + apply sendCommand_sameIdentity.
    + apply sendCommand_sameIdentity.
    + apply SetSweepConfig_sameIdentity.
    + apply SetSweepConfig_sameIdentity.
    + apply RunSweep_sameIdentity.
    + apply RunSweep_sameIdentity.
    + apply GetInfo_sameIdentity.
    + apply GetInfo_sameIdentity.
  - intros d. unfold AutoDetect.
    destruct (ListDevices os_Open) as [ports [e |]]; cbn; [discriminate|].
    apply detectOn_consistent.
Qed.

End InvariantProperties.

(* ================================================================== *)
(** * The theorems at work on concrete sessions *)

Lemma getHardwareInfo_total_well_formed_V2Plus4 :
  exists hi, getHardwareInfo VariantV2Plus4 = hi
             /\ SupportedPorts hi = ["S11"; "S21"; "S12"; "S22"]
             /\ MinHz (Range hi) <= MaxHz (Range hi)
             /\ 0 < MaxSweepPoints hi.
Proof.
  destruct (getHardwareInfo_total_well_formed VariantV2Plus4)
    as (hi & Heq & _ & Hrange & Hpoints & _).
  exists hi. rewrite <- Heq at 2. repeat split; assumption.
Defined.

Lemma SetSweepConfig_out_of_range_V1 :
  fst (SetSweepConfig 10 900000000 101 v1TestDevice)
  = Some (ErrStartBelowMin 10 50000 VariantV1)
  /\ isErrOutOfRange (fst (SetSweepConfig 10 900000000 101 v1TestDevice)) = true.
Proof.
  destruct (SetSweepConfig_out_of_range v1TestDevice 10 900000000 101)
    as (_ & Hstart & _ & _ & _ & Hv1).
  - exists VariantV1. reflexivity.
  - split.
    + apply Hstart. reflexivity.
    + apply Hv1; reflexivity.
Defined.

Lemma SetSweepConfig_fallback_all_fail :
  isErrCommandFailed (PortError "timeout")
    (fst (SetSweepConfig 50000 900000000 101 v1SilentDevice))
  /\ option_map WriteBuffer
       (portHandle (snd (SetSweepConfig 50000 900000000 101 v1SilentDevice)))
     = Some ("sweep 50000 900000000 101" ++ cr ++ "start 50000" ++ cr
             ++ "stop 900000000" ++ cr ++ "points 101" ++ cr).
Proof.
  destruct (SetSweepConfig_fallback v1SilentDevice
              (snd (sendCommand "sweep 50000 900000000 101" v1SilentDevice))
              50000 900000000 101 "" (PortError "timeout"))
    as (Hstate & _ & Hfail).
  - exists VariantV1. reflexivity.
  - unfold withinBounds. cbn. lia.
  - reflexivity.
  - split.
    + apply Hfail. reflexivity.
    + rewrite Hstate. reflexivity.
Defined.

Lemma sendCommand_error_policy_sessions :
  sendCommand "info" v1TestDevice = (("", Some ErrDeviceNotOpen), v1TestDevice)
  /\ fst (sendCommand "info" (deviceOn timeoutScript VariantV1)) = ("NanoVNA", None)
  /\ fst (sendCommand "info" (deviceOn silentScript VariantV1)) = ("", None).
Proof.
  destruct (@sendCommand_error_policy ScriptedPort _) as (_ & _ & Htimeout & Hquiet).
  destruct (@sendCommand_error_policy MockSerialPort _) as (Hclosed & _).
  split; [|split].
  - apply (Hclosed "info" v1TestDevice). reflexivity.
  - rewrite (Htimeout "info" "NanoVNA" "" "read timeout"
               (deviceOn timeoutScript VariantV1) timeoutScript
               (snd (port_Read timeoutScript bufLen))
               (snd (port_Write (snd (port_Read timeoutScript bufLen)) ("info" ++ cr)))
               {| pending := [("", Some "read timeout")];
                  written := ["info" ++ cr]; reads := 2 |}
               {| pending := []; written := ["info" ++ cr]; reads := 3 |}
               ("", None));
      try reflexivity.
    discriminate.
  - rewrite (Hquiet "info" "" (deviceOn silentScript VariantV1) silentScript
               (snd (port_Read silentScript bufLen))
               (snd (port_Write (snd (port_Read silentScript bufLen)) ("info" ++ cr)))
               {| pending := []; written := ["info" ++ cr]; reads := 11 |}
               ("", None));
      reflexivity.
Defined.

Lemma RunSweep_lengths_sessions :
  (exists n : nat,
      List.length (Frequencies (fst (fst (RunSweep (F:=Z * nat) tinysaSweepDevice)))) = n
      /\ List.length (S11 (fst (fst (RunSweep (F:=Z * nat) tinysaSweepDevice)))) = n
      /\ List.length (S21 (fst (fst (RunSweep (F:=Z * nat) tinysaSweepDevice)))) = n
      /\ (0 < n)%nat)
  /\ fst (RunSweep (F:=Z * nat) tinysaNoDataDevice) = (emptySweep, Some ErrNoValidData).
Proof.
  destruct (@RunSweep_lengths ScriptedPort _ (Z * nat)%type _) as [Hok Hempty].
  split.
  - destruct (Hok tinysaSweepDevice
                  (snd (RunSweep (F:=Z * nat) tinysaSweepDevice))
                  (fst (fst (RunSweep (F:=Z * nat) tinysaSweepDevice))))
      as (freqResp & s11Resp & d1 & d2 & _ & _ & Hlen).
    + reflexivity.
    + eexists. exact Hlen.
  - apply (Hempty tinysaNoDataDevice
             (snd (sendCommand "frequencies" tinysaNoDataDevice))
             (snd (sendCommand "data 0"
                     (snd (sendCommand "frequencies" tinysaNoDataDevice))))
             ("frequencies" ++ crlf ++ "1000000" ++ crlf ++ "ch> ")
             ("data 0" ++ crlf ++ "ch> ")).
    + reflexivity.
    + reflexivity.
    + right. reflexivity.
Defined.

Lemma RunSweep_no_S21_zeros_tinysa :
  S21 (fst (fst (RunSweep (F:=Z * nat) tinysaSweepDevice))) = [complex_zero]
  /\ allZero (S21 (fst (fst (RunSweep (F:=Z * nat) tinysaSweepDevice)))).
Proof.
  split; [reflexivity|].
  apply (RunSweep_no_S21_zeros tinysaSweepDevice
           (snd (RunSweep (F:=Z * nat) tinysaSweepDevice))); reflexivity.
Defined.

Lemma DetectVersion_specificity_sessions :
  variant (snd (DetectVersion (deviceOn plus4Script VariantUnknown))) = VariantV2Plus4
  /\ variant (snd (DetectVersion (deviceOn litevnaScript VariantUnknown)))
     = VariantLiteVNA.
Proof.
  split.
  - refine (proj1 (proj1 (DetectVersion_specificity
             (deviceOn plus4Script VariantUnknown) _ _ _ _ _ _
             "2>" ("info" ++ crlf ++ "NanoVNA V2 Plus4" ++ crlf ++ "ch> ") _
             _ _ _ _ _) _ _ _)); reflexivity.
  - refine (proj1 (proj2 (DetectVersion_specificity
             (deviceOn litevnaScript VariantUnknown) _ _ _ _ _ _
             "ch> " ("info" ++ crlf ++ "LiteVNA 64" ++ crlf ++ "ch> ") _
             _ _ _ _ _) _ _ _)); reflexivity.
Defined.

Lemma session_identity_invariant_sessions :
  (forall d, fst (Open noSerialPort "COM1" [Some litevnaScript]) = Some d ->
             variant d = VariantUnknown /\ consistent d)
  /\ variant (snd (DetectVersion (deviceOn strangerScript VariantV2)))
     = VariantUnknown
  /\ hardwareInfo (snd (DetectVersion (deviceOn strangerScript VariantV2)))
     = getHardwareInfo VariantUnknown
  /\ consistent (snd (DetectVersion (deviceOn litevnaScript VariantUnknown))).
Proof.
  destruct (@session_identity_invariant ScriptedPort _ (Z * nat)%type _
              noSerialPort noFile)
    as (Hopen & _ & Hdetect & _ & _).
  split; [|split; [|split]].
  - intros d Hd. exact (Hopen "COM1" [Some litevnaScript] d Hd).
  - destruct (Hdetect (deviceOn strangerScript VariantV2)) as (_ & Hbad & _).
    apply (Hbad "hello"). reflexivity.
  - destruct (Hdetect (deviceOn strangerScript VariantV2)) as (_ & Hbad & _).
    apply (Hbad "hello"). reflexivity.
  - destruct (Hdetect (deviceOn litevnaScript VariantUnknown)) as (Hok & _).
    apply Hok. reflexivity.
Defined.

(* ================================================================== *)
(** * Further properties of the registry and of the accessors *)

(** X1.  The display names of the nine variants are distinct and not empty: a
    name printed by [String] identifies its variant. *)
Theorem HardwareVariant_String_injective :
  forall a b : HardwareVariant,
    (HardwareVariant_String a = HardwareVariant_String b <-> a = b)
    /\ HardwareVariant_String a <> "".
Proof.
  intros a b. split; [split|].
  - destruct a, b; cbn; intros H; try reflexivity; discriminate H.
  - now intros ->.
  - destruct a; discriminate.
Qed.

Section AccessorProperties.

Context {P : Type} {SP : SerialPort P}.


End AccessorProperties.


Lemma HardwareVariant_String_injective_SAA2 :
  HardwareVariant_String VariantSAA2 <> HardwareVariant_String VariantV2.
Proof.
  intros H.
  apply (proj1 (proj1 (HardwareVariant_String_injective VariantSAA2 VariantV2))) in H.
  discriminate H.
Defined.

(* ================================================================== *)
(** * Further properties of the command channel *)

Section ChannelFrame.

Context {P : Type} {SP : SerialPort P}.

(** What [sendCommand] leaves of the device. *)
Lemma sendCommand_keeps_device (cmd : string) (d : Device P) :
  let d' := snd (sendCommand cmd d) in
  Port d' = Port d /\ config d' = config d /\ version d' = version d
  /\ (portHandle d = None -> d' = d)
  /\ (portHandle d <> None -> portHandle d' <> None).
Proof.
  unfold sendCommand.
  destruct (portHandle d) as [p |] eqn:Hd.
  - destruct (port_Read p bufLen) as [drained p1].
    destruct (port_Write p1 (cmd ++ cr)) as [[e |] p2].
    + cbn. repeat split; try discriminate.
    + destruct (readLoop maxAttempts "" p2) as [result p3].
      cbn. repeat split; try discriminate.
  - cbn. repeat split. intros H. now elim H.
Qed.

(** X3.  [sendCommand] touches nothing of the device but the state of its port:
    the port name, the stored configuration and the version label are kept,
    an open handle stays open, and without a handle the device is returned
    as it was. *)
Theorem sendCommand_frame (cmd : string) (d : Device P) :
  let d' := snd (sendCommand cmd d) in
  Port d' = Port d /\ config d' = config d /\ version d' = version d
  /\ (portHandle d = None -> d' = d)
  /\ (portHandle d <> None -> portHandle d' <> None).
Proof.
  exact (sendCommand_keeps_device cmd d).
Qed.

End ChannelFrame.

Lemma sendCommand_frame_sessions :
  snd (sendCommand "info" v1TestDevice) = v1TestDevice
  /\ portHandle (snd (sendCommand "info" v1SilentDevice)) <> None.
Proof.
  split.
  - apply (sendCommand_frame "info" v1TestDevice). reflexivity.
  - apply (sendCommand_frame "info" v1SilentDevice). discriminate.
Defined.

(** The read loop on the mock port leaves what was written, the read
    buffer and the closed flag alone. *)
Lemma readLoop_mock_frame (n : nat) :
  forall (response : string) (m : MockSerialPort),
    let m' := snd (readLoop n response m) in
    WriteBuffer m' = WriteBuffer m /\ ReadBuffer m' = ReadBuffer m
    /\ Closed m' = Closed m.
Proof.
  induction n as [| n IH]; intros response m; [now cbn|].
  cbn [readLoop port_Read MockSerialPort_SerialPort]. unfold Mock_Read.
  destruct (_ <=? _)%nat.
  - destruct (Contains "timeout" "timeout" && _); now cbn.
  - destruct (0 <? _)%nat.
    + destruct (Contains _ "ch>"); [now cbn|].
      match goal with
      | |- context [readLoop n ?r ?x] => specialize (IH r x)
      end.
      cbn in IH |- *. exact IH.
    + match goal with
      | |- context [readLoop n ?r ?x] => specialize (IH r x)
      end.
      cbn in IH |- *. exact IH.
Qed.

(** X4.  On the mock port of the tests, every exchange of [sendCommand] writes
    the command followed by one carriage return, once, after whatever was
    written before, and changes neither the read buffer nor the closed
    flag. *)
Theorem sendCommand_mock_writes (cmd : string) (d : Device MockSerialPort)
    (m : MockSerialPort) :
  portHandle d = Some m ->
  exists m' : MockSerialPort,
    portHandle (snd (sendCommand cmd d)) = Some m'
    /\ WriteBuffer m' = WriteBuffer m ++ cmd ++ cr
    /\ ReadBuffer m' = ReadBuffer m
    /\ Closed m' = Closed m.
Proof.
  intros Hd. unfold sendCommand. rewrite Hd.
  destruct (port_Read m bufLen) as [drained m1] eqn:Hdrain.
  assert (Hm1 : WriteBuffer m1 = WriteBuffer m /\ ReadBuffer m1 = ReadBuffer m
                /\ Closed m1 = Closed m).
  { cbn in Hdrain. unfold Mock_Read in Hdrain.
    destruct (_ <=? _)%nat; injection Hdrain as _ <-; now cbn. }
  destruct Hm1 as (Hw1 & Hr1 & Hc1).
  cbn [port_Write MockSerialPort_SerialPort]. unfold Mock_Write.
  match goal with
  | |- context [readLoop maxAttempts "" ?x] =>
      pose proof (readLoop_mock_frame maxAttempts "" x) as Hloop;
      destruct (readLoop maxAttempts "" x) as [result m3]
  end.
  cbn in Hloop. destruct Hloop as (Hw3 & Hr3 & Hc3).
  exists m3. cbn. rewrite Hw3, Hr3, Hc3, Hw1, Hr1, Hc1. now repeat split.
Qed.

Lemma sendCommand_mock_writes_silent :
  exists m' : MockSerialPort,
    portHandle (snd (sendCommand "version" v1SilentDevice)) = Some m'
    /\ WriteBuffer m' = "version" ++ cr.
Proof.
  destruct (sendCommand_mock_writes "version" v1SilentDevice emptyMock)
    as (m' & Hm' & Hw & _).
  - reflexivity.
  - exists m'. split; [exact Hm' | exact Hw].
Defined.

(** X5.  The mock port gives up to [len(p)] unread bytes at a read.  When at
    most 1024 bytes are unread, the drain at the start of [sendCommand]
    takes them all, the first read of the loop times out with nothing
    accumulated, and the exchange fails with the timeout. *)
Theorem sendCommand_mock_drained (cmd : string) (d : Device MockSerialPort)
    (m : MockSerialPort) :
  portHandle d = Some m ->
  (String.length (ReadBuffer m) - ReadIndex m <= bufLen)%nat ->
  fst (sendCommand cmd d) = ("", Some (PortError "timeout")).
Proof.
  intros Hd Hshort. unfold sendCommand. rewrite Hd.
  cbn [port_Read port_Write MockSerialPort_SerialPort].
  unfold Mock_Write.
  assert (Hdone : forall m1, snd (Mock_Read m bufLen) = m1 ->
                    (String.length (ReadBuffer m1) <=? ReadIndex m1)%nat = true).
  { intros m1 <-. unfold Mock_Read.
    destruct (Nat.leb_spec (String.length (ReadBuffer m)) (ReadIndex m)) as [Hle | Hgt].
    - cbn [snd]. now apply Nat.leb_le.
    - cbn [snd ReadBuffer ReadIndex]. apply Nat.leb_le.
      rewrite Nat.min_r by exact Hshort. lia. }
  destruct (Mock_Read m bufLen) as [drained m1].
  specialize (Hdone m1 eq_refl).
  unfold maxAttempts. cbn [readLoop port_Read MockSerialPort_SerialPort].
  unfold Mock_Read at 1. cbn [ReadBuffer ReadIndex]. rewrite Hdone.
  reflexivity.
Qed.

Lemma sendCommand_mock_drained_response_lost :
  fst (sendCommand "info"
         (deviceOn {| WriteBuffer := ""; ReadBuffer := "NanoVNA-H" ++ crlf ++ "ch> ";
                      Closed := false; ReadIndex := 0 |} VariantVH))
  = ("", Some (PortError "timeout")).
Proof.
  eapply sendCommand_mock_drained.
  - reflexivity.
  - cbn. unfold bufLen. lia.
Defined.

(** One turn of the read loop. *)
Lemma readLoop_step {P : Type} {SP : SerialPort P}
    (n : nat) (response : string) (p : P) :
  readLoop (S n) response p =
    let '((chunk, err), p') := port_Read p bufLen in
    match err with
    | Some e =>
        if Contains e "timeout" && (0 <? String.length response)%nat
        then ((response, None), p')
        else ((response, Some (PortError e)), p')
    | None =>
        if (0 <? String.length chunk)%nat then
          if Contains chunk "ch>" then ((response ++ chunk, None), p')
          else readLoop n (response ++ chunk) p'
        else readLoop n response p'
    end.
Proof. reflexivity. Qed.

Lemma Scripted_Read_counts (s s1 : ScriptedPort)
    (result : string * option string) (n : nat) :
  Scripted_Read s n = (result, s1) ->
  reads s1 = S (reads s) /\ written s1 = written s.
Proof.
  unfold Scripted_Read. destruct (pending s); intros [= _ <-]; now cbn.
Qed.

(** The scripted port counts its reads: a loop of [n] attempts reads at
    least once, when [n] is not zero, and at most [n] times, and writes
    nothing. *)
Lemma readLoop_scripted_reads (n : nat) :
  forall (response : string) (s : ScriptedPort),
    (reads s + Nat.min 1 n <= reads (snd (readLoop n response s))
     <= reads s + n)%nat
    /\ written (snd (readLoop n response s)) = written s.
Proof.
  induction n as [| n IH]; intros response s.
  - cbn. split; [lia | reflexivity].
  - rewrite readLoop_step.
    change (port_Read s bufLen) with (Scripted_Read s bufLen).
    destruct (Scripted_Read s bufLen) as [[chunk err] s1] eqn:Hread.
    destruct (Scripted_Read_counts _ _ _ _ Hread) as [Hr Hw].
    assert (Hrec : forall r,
               (reads s + Nat.min 1 (S n) <= reads (snd (readLoop n r s1))
                <= reads s + S n)%nat
               /\ written (snd (readLoop n r s1)) = written s).
    { intros r. destruct (IH r s1) as [[Hlo Hhi] Hwr].
      rewrite Hwr, Hw. split; [|reflexivity]. cbn [Nat.min]. lia. }
    assert (Hstop : (reads s + Nat.min 1 (S n) <= reads s1 <= reads s + S n)%nat
                    /\ written s1 = written s).
    { split; [|exact Hw]. cbn [Nat.min]. lia. }
    destruct err as [e |].
    + destruct (Contains e "timeout" && _); exact Hstop.
    + destruct (0 <? _)%nat; [destruct (Contains chunk "ch>")|].
      * exact Hstop.
      * apply Hrec.
      * apply Hrec.
Qed.

(** The reads and the write of one exchange on the scripted port. *)
Lemma sendCommand_scripted_counts (cmd : string) (d : Device ScriptedPort)
    (s : ScriptedPort) :
  portHandle d = Some s ->
  exists s' : ScriptedPort,
    portHandle (snd (sendCommand cmd d)) = Some s'
    /\ (reads s + 2 <= reads s' <= reads s + 11)%nat
    /\ written s' = (written s ++ [(cmd ++ cr)%string])%list.
Proof.
  intros Hd. unfold sendCommand. rewrite Hd.
  cbn [port_Read port_Write ScriptedPort_SerialPort].
  destruct (Scripted_Read s bufLen) as [drained s1] eqn:Hdrain.
  assert (Hs1 : reads s1 = S (reads s) /\ written s1 = written s).
  { unfold Scripted_Read in Hdrain.
    destruct (pending s); injection Hdrain as _ <-; now cbn. }
  destruct Hs1 as [Hr1 Hw1].
  unfold Scripted_Write. unfold maxAttempts.
  match goal with
  | |- context [readLoop 10 "" ?x] =>
      pose proof (readLoop_scripted_reads 10 "" x) as Hloop;
      destruct (readLoop 10 "" x) as [result s3]
  end.
  cbn [snd reads written Nat.min] in Hloop.
  destruct Hloop as [Hreads Hwritten].
  exists s3. cbn. rewrite Hwritten, Hw1. split; [reflexivity|]. split; [lia | reflexivity].
Qed.

(** X6.  Every exchange is bounded: on a port that counts, [sendCommand] makes
    between two and eleven reads (the drain and one to ten attempts) and
    exactly one write, that of the command and its carriage return. *)
Theorem sendCommand_scripted_bounded (cmd : string) (d : Device ScriptedPort)
    (s : ScriptedPort) :
  portHandle d = Some s ->
  exists s' : ScriptedPort,
    portHandle (snd (sendCommand cmd d)) = Some s'
    /\ (reads s + 2 <= reads s' <= reads s + 11)%nat
    /\ written s' = (written s ++ [(cmd ++ cr)%string])%list.
Proof.
  exact (sendCommand_scripted_counts cmd d s).
Qed.

Lemma sendCommand_scripted_bounded_silent :
  exists s' : ScriptedPort,
    portHandle (snd (sendCommand "info" (deviceOn silentScript VariantV1))) = Some s'
    /\ (2 <= reads s' <= 11)%nat
    /\ written s' = ["info" ++ cr].
Proof.
  destruct (sendCommand_scripted_bounded "info"
              (deviceOn silentScript VariantV1) silentScript)
    as (s' & Hs' & Hreads & Hwritten).
  - reflexivity.
  - exists s'. split; [exact Hs'|]. split; [exact Hreads | exact Hwritten].
Defined.

(* ================================================================== *)
(** * Further properties of the sweep configurator *)

Section ConfiguratorFrame.

Context {P : Type} {SP : SerialPort P}.

(** X7.  A call of [SetSweepConfig] that reports a bound violated has made no
    exchange: the device and its port are exactly as before. *)
Theorem SetSweepConfig_rejects_without_io
    (d : Device P) (startHz stopHz points : Z) :
  isErrOutOfRange (fst (SetSweepConfig startHz stopHz points d)) = true ->
  snd (SetSweepConfig startHz stopHz points d) = d.
Proof.
  unfold SetSweepConfig.
  destruct (_ <? _); [reflexivity|].
  destruct (_ <? _); [reflexivity|].
  destruct (_ <? _); [reflexivity|].
  destruct (variant d);
    repeat match goal with
           | |- context [sendCommand ?cmd ?x] =>
               destruct (sendCommand cmd x) as [[? [? |]] ?]
           end; cbn; discriminate.
Qed.

Lemma sendCommand_closed (cmd : string) (d : Device P) :
  portHandle d = None -> sendCommand cmd d = (("", Some ErrDeviceNotOpen), d).
Proof.
  intros Hd. unfold sendCommand. now rewrite Hd.
Qed.

Lemma tryCommands_closed (cmds : list string) (d : Device P) :
  portHandle d = None -> tryCommands cmds d = (false, d).
Proof.
  intros Hd. induction cmds as [| cmd rest IH]; [reflexivity|].
  cbn [tryCommands]. rewrite (sendCommand_closed _ _ Hd). exact IH.
Qed.

(** X8.  On a device without a port handle, a request within the bounds fails
    with the command-failed error that wraps the device-not-open error,
    and the device is unchanged: the bounds are checked before the handle
    is. *)
Theorem SetSweepConfig_closed_device
    (d : Device P) (startHz stopHz points : Z) :
  portHandle d = None ->
  fromRegistry (hardwareInfo d) ->
  withinBounds (hardwareInfo d) startHz stopHz points ->
  SetSweepConfig startHz stopHz points d
  = (Some (commandFailed (variant d) ErrDeviceNotOpen), d).
Proof.
  intros Hd Hreg (Hs & Ht & Hp).
  rewrite (SetSweepConfig_validation d _ _ _ Hreg).
  destruct (Z.ltb_spec startHz (MinHz (Range (hardwareInfo d)))); [lia|].
  destruct (Z.ltb_spec (MaxHz (Range (hardwareInfo d))) stopHz); [lia|].
  destruct (Z.ltb_spec (MaxSweepPoints (hardwareInfo d)) points); [lia|].
  rewrite (sendCommand_closed _ _ Hd), (tryCommands_closed _ _ Hd).
  reflexivity.
Qed.

End ConfiguratorFrame.

Lemma SetSweepConfig_rejects_without_io_V1 :
  snd (SetSweepConfig 50000 900000001 101 v1SilentDevice) = v1SilentDevice.
Proof.
  apply SetSweepConfig_rejects_without_io. reflexivity.
Defined.

Lemma SetSweepConfig_closed_device_V1 :
  SetSweepConfig 50000 900000000 101 v1TestDevice
  = (Some (ErrSweepConfig ErrDeviceNotOpen), v1TestDevice).
Proof.
  apply (SetSweepConfig_closed_device v1TestDevice 50000 900000000 101).
  - reflexivity.
  - exists VariantV1. reflexivity.
  - unfold withinBounds. cbn. lia.
Defined.

(** Commands tried in sequence on the scripted port: [k] of them were
    exchanged, each written once with its carriage return and each costing
    at most eleven reads; [k] is the whole list when none was accepted. *)
Lemma tryCommands_scripted (cmds : list string) :
  forall (d : Device ScriptedPort) (s : ScriptedPort),
    portHandle d = Some s ->
    exists (k : nat) (s' : ScriptedPort),
      portHandle (snd (tryCommands cmds d)) = Some s'
      /\ (k <= List.length cmds)%nat
      /\ written s'
         = (written s ++ map (fun cmd => (cmd ++ cr)%string) (firstn k cmds))%list
      /\ (reads s' <= reads s + 11 * k)%nat
      /\ (fst (tryCommands cmds d) = true -> (1 <= k)%nat)
      /\ (fst (tryCommands cmds d) = false -> k = List.length cmds).
Proof.
  induction cmds as [| cmd rest IH]; intros d s Hd.
  - exists 0%nat, s. cbn. rewrite app_nil_r.
    repeat split; auto; try lia; discriminate.
  - cbn [tryCommands].
    destruct (sendCommand_scripted_counts cmd d s Hd) as (s1 & Hs1 & Hr1 & Hw1).
    destruct (sendCommand cmd d) as [[resp [e |]] d1]; cbn [snd] in Hs1.
    + destruct (IH d1 s1 Hs1) as (k & s' & Hs' & Hk & Hw & Hr & Hok & Hfail).
      exists (S k), s'. cbn [fst snd List.length firstn map].
      rewrite Hw, Hw1, <- app_assoc. cbn [app].
      repeat split; auto; lia.
    + exists 1%nat, s1. cbn [fst snd List.length firstn map].
      rewrite Hw1. repeat split; auto; try lia; discriminate.
Qed.

(** X9.  A request within the bounds makes between one and four exchanges, in
    the order primary command, then the three scoped commands: on a port
    that logs, the commands written are the first [k] of the four, each
    once, and at most eleven reads go with each; the call fails only after
    all four. *)
Theorem SetSweepConfig_scripted_exchanges
    (d : Device ScriptedPort) (s : ScriptedPort) (startHz stopHz points : Z) :
  portHandle d = Some s ->
  fromRegistry (hardwareInfo d) ->
  withinBounds (hardwareInfo d) startHz stopHz points ->
  let cmds := primaryCommand (hardwareInfo d) startHz stopHz points
              :: fallbackCommands (variant d) startHz stopHz points in
  exists (k : nat) (s' : ScriptedPort),
    portHandle (snd (SetSweepConfig startHz stopHz points d)) = Some s'
    /\ (1 <= k <= 4)%nat
    /\ written s'
       = (written s ++ map (fun cmd => (cmd ++ cr)%string) (firstn k cmds))%list
    /\ (reads s' <= reads s + 11 * k)%nat
    /\ (fst (SetSweepConfig startHz stopHz points d) <> None -> k = 4%nat).
Proof.
  intros Hd Hreg (Hs & Ht & Hp) cmds.
  rewrite (SetSweepConfig_validation d _ _ _ Hreg).
  destruct (Z.ltb_spec startHz (MinHz (Range (hardwareInfo d)))); [lia|].
  destruct (Z.ltb_spec (MaxHz (Range (hardwareInfo d))) stopHz); [lia|].
  destruct (Z.ltb_spec (MaxSweepPoints (hardwareInfo d)) points); [lia|].
  destruct (tryCommands_scripted cmds d s Hd)
    as (k & s' & Hs' & Hk & Hw & Hr & Hok & Hfail).
  assert (Hlen : List.length cmds = 4%nat).
  { unfold cmds, fallbackCommands. now destruct (isV2Family (variant d)). }
  exists k, s'.
  subst cmds. cbn [tryCommands] in Hs', Hok, Hfail.
  destruct (sendCommand (primaryCommand (hardwareInfo d) startHz stopHz points) d)
    as [[resp [e |]] d1].
  - destruct (tryCommands (fallbackCommands (variant d) startHz stopHz points) d1)
      as [accepted d'].
    cbn [fst snd] in *.
    split; [exact Hs'|]. split.
    { destruct accepted; [specialize (Hok eq_refl) | specialize (Hfail eq_refl)]; lia. }
    split; [exact Hw|]. split; [exact Hr|].
    destruct accepted; [intros Hne; now elim Hne|].
    intros _. rewrite (Hfail eq_refl). exact Hlen.
  - cbn [fst snd] in *.
    split; [exact Hs'|]. split; [specialize (Hok eq_refl); lia|].
    split; [exact Hw|]. split; [exact Hr|].
    intros Hne. now elim Hne.
Qed.

Lemma SetSweepConfig_scripted_exchanges_V2 :
  exists (k : nat) (s' : ScriptedPort),
    portHandle (snd (SetSweepConfig 1000000 2000000 201
                       (deviceOn silentScript VariantV2))) = Some s'
    /\ (1 <= k <= 4)%nat
    /\ (reads s' <= 11 * k)%nat.
Proof.
  destruct (SetSweepConfig_scripted_exchanges
              (deviceOn silentScript VariantV2) silentScript 1000000 2000000 201)
    as (k & s' & Hs' & Hk & _ & Hr & _).
  - reflexivity.
  - exists VariantV2. reflexivity.
  - unfold withinBounds. cbn. lia.
  - exists k, s'. split; [exact Hs'|]. split; [exact Hk | exact Hr].
Defined.

(* ================================================================== *)
(** * Further properties of the sweep data parser *)

Section ParserContents.

Context {P : Type} {SP : SerialPort P} {F : Type} {FL : Float64 F}.

(** X10.  [RunSweep] never returns data together with an error: whenever the
    error is not [nil], the [SweepData] is the empty value. *)
Theorem RunSweep_error_no_data (d : Device P) :
  snd (fst (RunSweep (F:=F) d)) <> None ->
  fst (fst (RunSweep (F:=F) d)) = emptySweep.
Proof.
  unfold RunSweep.
  destruct (sendCommand _ d) as [[freqResp [e |]] d1]; [reflexivity|].
  destruct (sendCommand _ d1) as [[s11Resp [e |]] d2]; [reflexivity|].
  destruct (if HasS21 _ && IsPortSupported d2 "S21" then _ else _) as [s21 d3].
  destruct (_ || _); [reflexivity|].
  cbn. intros H. now elim H.
Qed.

(** The parsing loops keep the order of the lines: the result is what the
    lines contribute, one after the other, after what was there. *)
Lemma parseFrequencies_in_order (freqCmd prompt : string) (lines : list string) :
  forall acc : list F,
    parseFrequencies freqCmd prompt lines acc
    = (acc ++ flat_map (fun line =>
                          match parseFrequencyLine (F:=F) freqCmd prompt line with
                          | Some freq => [freq]
                          | None => []
                          end) lines)%list.
Proof.
  induction lines as [| line rest IH]; intros acc; cbn.
  - now rewrite app_nil_r.
  - destruct (parseFrequencyLine freqCmd prompt line); rewrite IH.
    + now rewrite <- app_assoc.
    + reflexivity.
Qed.

Lemma parseData_in_order (prompt : string) (lines : list string) :
  forall acc : list (F * F),
    parseData prompt lines acc
    = (acc ++ flat_map (fun line =>
                          match parseDataLine (F:=F) prompt line with
                          | Some sample => [sample]
                          | None => []
                          end) lines)%list.
Proof.
  induction lines as [| line rest IH]; intros acc; cbn.
  - now rewrite app_nil_r.
  - destruct (parseDataLine prompt line); rewrite IH.
    + now rewrite <- app_assoc.
    + reflexivity.
Qed.

(** X11.  The frequencies and the S11 samples of a successful sweep are read
    off the responses in line order and nothing else: they are the first
    [n] values that the lines of the frequency response, and of the S11
    response, contribute, [n] being the common length. *)
Theorem RunSweep_values_in_line_order (d d' : Device P) (data : SweepData F) :
  RunSweep d = ((data, None), d') ->
  let hi := hardwareInfo d in
  exists (freqResp s11Resp : string) (d1 d2 : Device P),
    sendCommand (FreqCommand (Commands hi)) d = ((freqResp, None), d1)
    /\ sendCommand (Sprintf (DataCommand (Commands hi)) [0]) d1
       = ((s11Resp, None), d2)
    /\ Frequencies data
       = firstn (List.length (Frequencies data))
           (flat_map (fun line =>
                        match parseFrequencyLine (F:=F) (FreqCommand (Commands hi))
                                (PromptPattern (Commands hi)) line with
                        | Some freq => [freq]
                        | None => []
                        end) (Split freqResp newline))
    /\ S11 data
       = firstn (List.length (Frequencies data))
           (flat_map (fun line =>
                        match parseDataLine (F:=F) (PromptPattern (Commands hi)) line with
                        | Some sample => [sample]
                        | None => []
                        end) (Split s11Resp newline)).
Proof.
  intros Hrun hi.
  destruct (RunSweep_success_exchanges _ _ _ Hrun)
    as (freqResp & s11Resp & d1 & d2 & Hfreq & Hs11).
  exists freqResp, s11Resp, d1, d2. fold hi in Hfreq, Hs11.
  split; [exact Hfreq|]. split; [exact Hs11|].
  destruct (RunSweep_after_exchanges d d1 d2 _ _ Hfreq Hs11)
    as (s21raw & d3 & _ & Heq).
  fold hi in Heq. rewrite Heq in Hrun. clear Heq. cbv zeta in Hrun.
  rewrite (parseFrequencies_in_order _ _ _ []) in Hrun.
  rewrite (parseData_in_order _ _ []) in Hrun.
  cbn [app] in Hrun.
  set (frequencies := flat_map _ (Split freqResp newline)) in *.
  set (s11 := flat_map _ (Split s11Resp newline)) in *.
  destruct (_ || _) in Hrun; [discriminate|].
  injection Hrun as <- _. cbn [Frequencies S11].
  rewrite length_firstn.
  destruct (Nat.ltb_spec (List.length s11) (List.length frequencies)) as [Hlt | Hge].
  - rewrite Nat.min_l by lia. split; reflexivity.
  - rewrite Nat.min_id. split; reflexivity.
Qed.

Lemma dummyS21_repeat (s11 : list (F * F)) :
  forall s21 : list (F * F),
    dummyS21 s11 s21 = (s21 ++ repeat complex_zero (List.length s11))%list.
Proof.
  unfold dummyS21.
  induction s11 as [| x s11 IH]; intros s21; cbn.
  - now rewrite app_nil_r.
  - rewrite IH, <- app_assoc. reflexivity.
Qed.

(** X12.  A failure of the S21 exchange does not fail the sweep.  On a session
    that declares S21 and lists the port, when the exchanges of the
    frequencies and of S11 succeed with data and the exchange of S21
    fails, [RunSweep] succeeds and its S21 sequence holds zeros only, as
    many as there are S11 samples in the result. *)
Theorem RunSweep_S21_failure_recovered
    (d d1 d2 d3 : Device P) (freqResp s11Resp s21Resp : string) (e : error) :
  let hi := hardwareInfo d in
  HasS21 (Capabilities hi) = true ->
  IsPortSupported d "S21" = true ->
  sendCommand (FreqCommand (Commands hi)) d = ((freqResp, None), d1) ->
  sendCommand (Sprintf (DataCommand (Commands hi)) [0]) d1 = ((s11Resp, None), d2) ->
  sendCommand (Sprintf (DataCommand (Commands hi)) [1]) d2 = ((s21Resp, Some e), d3) ->
  parsedFrequencyCount (F:=F) (FreqCommand (Commands hi))
    (PromptPattern (Commands hi)) freqResp <> 0%nat ->
  parsedDataCount (F:=F) (PromptPattern (Commands hi)) s11Resp <> 0%nat ->
  exists data : SweepData F,
    RunSweep d = ((data, None), d3)
    /\ allZero (S21 data)
    /\ List.length (S21 data) = List.length (S11 data).
Proof.
  intros hi Hcap Hport Hfreq Hs11 Hs21 Hnf Hns.
  assert (Hport2 : IsPortSupported d2 "S21" = true).
  { unfold IsPortSupported in *.
    pose proof (sendCommand_sameIdentity (FreqCommand (Commands hi)) d) as [_ H1].
    pose proof (sendCommand_sameIdentity (Sprintf (DataCommand (Commands hi)) [0]) d1)
      as [_ H2].
    rewrite Hfreq in H1. rewrite Hs11 in H2. cbn [snd] in H1, H2.
    now rewrite H2, H1. }
  unfold parsedFrequencyCount, parsedDataCount in Hnf, Hns.
  pose proof (parseFrequencies_length (FreqCommand (Commands hi))
                (PromptPattern (Commands hi)) (Split freqResp newline) []) as Hlf.
  pose proof (parseData_length (PromptPattern (Commands hi))
                (Split s11Resp newline) []) as Hls.
  cbn [List.length Nat.add] in Hlf, Hls. rewrite <- Hlf in Hnf. rewrite <- Hls in Hns.
  unfold RunSweep. fold hi. rewrite Hfreq, Hs11, Hcap, Hport2.
  cbn [andb]. rewrite Hs21.
  set (frequencies := parseFrequencies _ _ _ _) in *.
  set (s11 := parseData _ _ _) in *.
  rewrite (dummyS21_repeat s11 []). cbn [app].
  assert (Hzeros : allZero (repeat (complex_zero (F:=F)) (List.length s11))).
  { apply Forall_forall. intros x Hx. now apply repeat_spec in Hx. }
  pose proof (padZeros_length (List.length s11)
                (repeat complex_zero (List.length s11))) as Hpad.
  rewrite repeat_length, Nat.max_id in Hpad.
  pose proof (padZeros_allZero (List.length s11) _ Hzeros) as Hpz.
  set (s21 := padZeros (List.length s11) (repeat complex_zero (List.length s11))) in *.
  destruct (Nat.eqb_spec (List.length frequencies) 0); [contradiction|].
  destruct (Nat.eqb_spec (List.length s11) 0); [contradiction|].
  cbn [orb].
  eexists. split; [reflexivity|]. cbn [S21 S11].
  destruct (Nat.ltb_spec (List.length s11) (List.length frequencies)) as [Hlt | Hge].
  - destruct (Nat.leb_spec (List.length s11) (List.length s21)); [|lia].
    split; [now apply firstn_allZero|]. rewrite !length_firstn. lia.
  - destruct (Nat.leb_spec (List.length frequencies) (List.length s21)); [|lia].
    split; [now apply firstn_allZero|]. rewrite !length_firstn. lia.
Qed.

(** X13.  When the S21 exchange succeeds, the S21 sequence of the result starts
    with the samples that the lines of the S21 response contribute, in
    order, and goes on with zeros where the response had fewer samples
    than S11: it is the sequence of the first [n] of them, [n] being the
    common length. *)
Theorem RunSweep_S21_parsed_then_zeros
    (d d1 d2 d3 : Device P) (freqResp s11Resp s21Resp : string)
    (data : SweepData F) (d' : Device P) :
  let hi := hardwareInfo d in
  HasS21 (Capabilities hi) = true ->
  IsPortSupported d "S21" = true ->
  sendCommand (FreqCommand (Commands hi)) d = ((freqResp, None), d1) ->
  sendCommand (Sprintf (DataCommand (Commands hi)) [0]) d1 = ((s11Resp, None), d2) ->
  sendCommand (Sprintf (DataCommand (Commands hi)) [1]) d2 = ((s21Resp, None), d3) ->
  RunSweep d = ((data, None), d') ->
  let parsed21 :=
    flat_map (fun line =>
                match parseDataLine (F:=F) (PromptPattern (Commands hi)) line with
                | Some sample => [sample]
                | None => []
                end) (Split s21Resp newline) in
  d' = d3
  /\ S21 data
     = firstn (List.length (S11 data))
         (parsed21
          ++ repeat complex_zero
               (parsedDataCount (F:=F) (PromptPattern (Commands hi)) s11Resp
                - List.length parsed21))%list.
Proof.
  intros hi Hcap Hport Hfreq Hs11 Hs21 Hrun parsed21.
  assert (Hport2 : IsPortSupported d2 "S21" = true).
  { unfold IsPortSupported in *.
    pose proof (sendCommand_sameIdentity (FreqCommand (Commands hi)) d) as [_ H1].
    pose proof (sendCommand_sameIdentity (Sprintf (DataCommand (Commands hi)) [0]) d1)
      as [_ H2].
    rewrite Hfreq in H1. rewrite Hs11 in H2. cbn [snd] in H1, H2.
    now rewrite H2, H1. }
  unfold parsedDataCount.
  pose proof (parseData_length (PromptPattern (Commands hi))
                (Split s11Resp newline) []) as Hls.
  cbn [List.length Nat.add] in Hls. rewrite <- Hls.
  unfold RunSweep in Hrun. fold hi in Hrun.
  rewrite Hfreq, Hs11, Hcap, Hport2 in Hrun. cbn [andb] in Hrun.
  rewrite Hs21 in Hrun.
  rewrite (parseData_in_order _ (Split s21Resp newline) []) in Hrun.
  cbn [app] in Hrun. fold parsed21 in Hrun.
  set (frequencies := parseFrequencies _ _ _ _) in *.
  set (s11 := parseData _ _ _) in *.
  assert (Hpz : padZeros (List.length s11) parsed21
                = (parsed21 ++ repeat complex_zero
                                 (List.length s11 - List.length parsed21))%list)
    by (unfold padZeros; apply appendZeros_repeat).
  rewrite Hpz in Hrun. clear Hpz.
  set (s21 := (parsed21 ++ repeat complex_zero (List.length s11 - List.length parsed21))%list) in *.
  assert (Hlen21 : (List.length s11 <= List.length s21)%nat).
  { unfold s21. rewrite length_app, repeat_length. lia. }
  destruct (_ || _) in Hrun; [discriminate|].
  injection Hrun as <- <-. split; [reflexivity|]. cbn [S21 S11].
  rewrite length_firstn.
  destruct (Nat.ltb_spec (List.length s11) (List.length frequencies)) as [Hlt | Hge].
  - destruct (Nat.leb_spec (List.length s11) (List.length s21)); [|lia].
    now rewrite Nat.min_id.
  - destruct (Nat.leb_spec (List.length frequencies) (List.length s21)); [|lia].
    now rewrite Nat.min_l by lia.
Qed.

End ParserContents.

Lemma RunSweep_error_no_data_closed :
  fst (fst (RunSweep (F:=Z * nat) v1TestDevice)) = emptySweep.
Proof.
  apply RunSweep_error_no_data. discriminate.
Defined.

Lemma RunSweep_values_in_line_order_tinysa :
  Frequencies (fst (fst (RunSweep (F:=Z * nat) tinysaSweepDevice)))
  = [(1000000, 0%nat)]
  /\ exists freqResp : string,
       Frequencies (fst (fst (RunSweep (F:=Z * nat) tinysaSweepDevice)))
       = firstn 1
           (flat_map (fun line =>
                        match parseFrequencyLine (F:=Z * nat) "frequencies" "ch>" line with
                        | Some freq => [freq]
                        | None => []
                        end) (Split freqResp newline)).
Proof.
  split; [reflexivity|].
  destruct (RunSweep_values_in_line_order tinysaSweepDevice
              (snd (RunSweep (F:=Z * nat) tinysaSweepDevice))
              (fst (fst (RunSweep (F:=Z * nat) tinysaSweepDevice))))
    as (freqResp & s11Resp & d1 & d2 & _ & _ & Hfreq & _).
  - reflexivity.
  - exists freqResp. exact Hfreq.
Defined.

Lemma RunSweep_S21_failure_recovered_V1 :
  exists data : SweepData (Z * nat),
    fst (RunSweep v1S21FailDevice) = (data, None)
    /\ allZero (S21 data)
    /\ List.length (S21 data) = List.length (S11 data).
Proof.
  edestruct (RunSweep_S21_failure_recovered (F:=Z * nat) v1S21FailDevice)
    as (data & Hrun & Hzero & Hlen).
  - reflexivity.
  - reflexivity.
  - reflexivity.
  - reflexivity.
  - reflexivity.
  - discriminate.
  - discriminate.
  - exists data. rewrite Hrun. split; [reflexivity|]. split; assumption.
Defined.

Lemma RunSweep_S21_parsed_then_zeros_V1 :
  S21 (fst (fst (RunSweep (F:=Z * nat) v1S21ShortDevice)))
  = [((9, 1%nat), (0, 1%nat)); complex_zero].
Proof.
  pose (d1 := snd (sendCommand "frequencies" v1S21ShortDevice)).
  pose (d2 := snd (sendCommand "data 0" d1)).
  pose (d3 := snd (sendCommand "data 1" d2)).
  destruct (RunSweep_S21_parsed_then_zeros (F:=Z * nat) v1S21ShortDevice
              d1 d2 d3
              (fst (fst (sendCommand "frequencies" v1S21ShortDevice)))
              (fst (fst (sendCommand "data 0" d1)))
              (fst (fst (sendCommand "data 1" d2)))
              (fst (fst (RunSweep (F:=Z * nat) v1S21ShortDevice)))
              (snd (RunSweep (F:=Z * nat) v1S21ShortDevice)))
    as (_ & Hs21).
  - reflexivity.
  - reflexivity.
  - reflexivity.
  - reflexivity.
  - reflexivity.
  - reflexivity.
  - rewrite Hs21. reflexivity.
Defined.

(* ================================================================== *)
(** * Properties of the device info parser *)

Lemma length_append_string (s t : string) :
  String.length (s ++ t) = (String.length s + String.length t)%nat.
Proof.
  induction s as [| c s IH]; [reflexivity|]. cbn. now rewrite IH.
Qed.

Lemma append_not_self (s t : string) : t <> "" -> s ++ t <> s.
Proof.
  intros Ht H.
  assert (Hlen : String.length (s ++ t) = String.length s) by now rewrite H.
  rewrite length_append_string in Hlen.
  destruct t; [now elim Ht | cbn in Hlen; lia].
Qed.

Section InfoProperties.

Context {P : Type} {SP : SerialPort P}.

(** X15.  [GetInfo] passes on the outcome of its one exchange: its error and the
    device afterwards are those of [sendCommand] on the info command, and
    with an error the [DeviceInfo] is empty.  On success the model is
    never empty and never the bare display name of the variant. *)
Theorem GetInfo_model_always_set (d : Device P) :
  let exchange := sendCommand (InfoCommand (Commands (hardwareInfo d))) d in
  snd (fst (GetInfo d)) = snd (fst exchange)
  /\ snd (GetInfo d) = snd exchange
  /\ (snd (fst exchange) <> None ->
      fst (fst (GetInfo d)) = {| Model := ""; Firmware := ""; SerialNum := "" |})
  /\ (snd (fst exchange) = None ->
      Model (fst (fst (GetInfo d))) <> ""
      /\ Model (fst (fst (GetInfo d))) <> HardwareVariant_String (variant d)).
Proof.
  intros exchange. subst exchange. unfold GetInfo.
  pose proof (sendCommand_sameIdentity (InfoCommand (Commands (hardwareInfo d))) d)
    as [Hv _].
  destruct (sendCommand _ d) as [[resp [e |]] d1]; cbn [fst snd] in *.
  - split; [reflexivity|]. split; [reflexivity|].
    split; [reflexivity | discriminate].
  - split; [reflexivity|]. split; [reflexivity|].
    split; [intros H; now elim H|]. intros _.
    rewrite Hv.
    set (name := HardwareVariant_String (variant d)).
    set (info := fold_left _ _ _).
    destruct (String.eqb (Model info) "" || String.eqb (Model info) name) eqn:Hc;
      cbn [Model withModel].
    + split; [|apply append_not_self; discriminate].
      intros H. apply (f_equal String.length) in H.
      rewrite length_append_string in H. cbn in H. lia.
    + apply orb_false_elim in Hc. destruct Hc as [H1 H2].
      apply String.eqb_neq in H1. apply String.eqb_neq in H2. now split.
Qed.

(** The model after one line, for a variant read in the generic format:
    a retained line becomes the model as long as the model is the display
    name. *)
Lemma infoLine_model_generic (d : Device P) (infoCmd : string)
    (info : DeviceInfo) (line : string) :
  readsV2Info (variant d) = false ->
  Model (infoLine d infoCmd info line)
  = if skipsInfoLine (PromptPattern (Commands (hardwareInfo d))) infoCmd
         (TrimSpace line)
    then Model info
    else if String.eqb (Model info) (HardwareVariant_String (variant d))
         then TrimSpace line else Model info.
Proof.
  intros Hv. unfold infoLine, skipsInfoLine.
  destruct (_ || _); [reflexivity|].
  destruct (variant d); try discriminate Hv;
    destruct (String.eqb (Model info) _);
    repeat match goal with
           | |- context [if ?c then _ else _] => destruct c
           | |- context [match firmwareToken ?x with _ => _ end] =>
               destruct (firmwareToken x)
           end; reflexivity.
Qed.

(** The same for a variant read in the V2 format: a retained line that
    names "nanovna" or "saa2", in any case, becomes the model. *)
Lemma infoLine_model_v2 (d : Device P) (infoCmd : string)
    (info : DeviceInfo) (line : string) :
  readsV2Info (variant d) = true ->
  Model (infoLine d infoCmd info line)
  = if negb (skipsInfoLine (PromptPattern (Commands (hardwareInfo d))) infoCmd
               (TrimSpace line))
       && (containsFold (TrimSpace line) "nanovna"
           || containsFold (TrimSpace line) "saa2")
    then TrimSpace line else Model info.
Proof.
  intros Hv. unfold infoLine, skipsInfoLine, containsFold.
  destruct (_ || _ || _); [reflexivity|]. cbn [negb andb].
  destruct (variant d); try discriminate Hv;
    destruct (Contains (ToLower (TrimSpace line)) "nanovna"
              || Contains (ToLower (TrimSpace line)) "saa2");
    repeat match goal with
           | |- context [if ?c then _ else _] => destruct c
           | |- context [match Split ?x ?y with _ => _ end] =>
               destruct (Split x y) as [| ? [| ? ?]]
           end; reflexivity.
Qed.

Lemma fold_infoLine_model_generic (d : Device P) (infoCmd : string)
    (lines : list string) :
  readsV2Info (variant d) = false ->
  forall info : DeviceInfo,
    Model (fold_left (infoLine d infoCmd) lines info)
    = if String.eqb (Model info) (HardwareVariant_String (variant d))
      then match find (fun l => negb (String.eqb l (HardwareVariant_String (variant d))))
                   (filter (fun l => negb (skipsInfoLine
                                             (PromptPattern (Commands (hardwareInfo d)))
                                             infoCmd l))
                           (map TrimSpace lines)) with
           | Some l => l
           | None => Model info
           end
      else Model info.
Proof.
  intros Hv. set (name := HardwareVariant_String (variant d)).
  induction lines as [| line rest IH]; intros info.
  - cbn. now destruct (String.eqb (Model info) name).
  - cbn [fold_left map filter]. rewrite IH.
    rewrite (infoLine_model_generic d infoCmd info line Hv). fold name.
    destruct (skipsInfoLine _ infoCmd (TrimSpace line)); cbn [negb].
    + reflexivity.
    + destruct (String.eqb_spec (Model info) name) as [Hm | Hm].
      * cbn [find].
        destruct (String.eqb_spec (TrimSpace line) name) as [Hl | Hl]; cbn [negb].
        -- rewrite Hl, Hm. reflexivity.
        -- reflexivity.
      * destruct (String.eqb_spec (Model info) name); [contradiction | reflexivity].
Qed.

Lemma find_app_string (p : string -> bool) (a b : list string) :
  find p (a ++ b)%list
  = match find p a with Some x => Some x | None => find p b end.
Proof.
  induction a as [| x a IH]; [reflexivity|].
  cbn. now destruct (p x).
Qed.

Lemma fold_infoLine_model_v2 (d : Device P) (infoCmd : string)
    (lines : list string) :
  readsV2Info (variant d) = true ->
  forall info : DeviceInfo,
    Model (fold_left (infoLine d infoCmd) lines info)
    = match find (fun l => containsFold l "nanovna" || containsFold l "saa2")
                 (rev (filter (fun l => negb (skipsInfoLine
                                                (PromptPattern (Commands (hardwareInfo d)))
                                                infoCmd l))
                              (map TrimSpace lines))) with
      | Some l => l
      | None => Model info
      end.
Proof.
  intros Hv.
  induction lines as [| line rest IH]; intros info; [reflexivity|].
  cbn [fold_left map filter]. rewrite IH.
  rewrite (infoLine_model_v2 d infoCmd info line Hv).
  destruct (skipsInfoLine _ infoCmd (TrimSpace line)); cbn [negb andb].
  - reflexivity.
  - cbn [rev]. rewrite find_app_string.
    destruct (find _ (rev _)); [reflexivity|].
    cbn [find]. now destruct (_ || _).
Qed.

Lemma fold_infoLine_all_skipped (d : Device P) (infoCmd : string)
    (lines : list string) (info : DeviceInfo) :
  filter (fun l => negb (skipsInfoLine (PromptPattern (Commands (hardwareInfo d)))
                           infoCmd l))
         (map TrimSpace lines) = [] ->
  fold_left (infoLine d infoCmd) lines info = info.
Proof.
  revert info. induction lines as [| line rest IH]; intros info Hall; [reflexivity|].
  cbn [fold_left map filter] in *.
  destruct (skipsInfoLine _ infoCmd (TrimSpace line)) eqn:Hskip; cbn [negb] in Hall;
    [|discriminate].
  rewrite <- (IH info Hall) at 2. f_equal.
  unfold infoLine. unfold skipsInfoLine in Hskip. now rewrite Hskip.
Qed.

(** X16.  On a variant read in the generic format (not V2, V2Plus, V2Plus4 or
    SAA2), the model [GetInfo] returns is the first retained line of the
    response that differs from the display name of the variant, and the
    display name followed by " (detected)" when there is none. *)
Theorem GetInfo_model_generic (d d1 : Device P) (resp : string) :
  let hi := hardwareInfo d in
  let name := HardwareVariant_String (variant d) in
  readsV2Info (variant d) = false ->
  sendCommand (InfoCommand (Commands hi)) d = ((resp, None), d1) ->
  Model (fst (fst (GetInfo d)))
  = match find (fun l => negb (String.eqb l name))
               (retainedInfoLines (PromptPattern (Commands hi))
                                  (InfoCommand (Commands hi)) resp) with
    | Some l => l
    | None => name ++ " (detected)"
    end.
Proof.
  intros hi name Hv Hex.
  pose proof (sendCommand_sameIdentity (InfoCommand (Commands hi)) d) as [Hv1 Hh1].
  fold hi in Hv1, Hh1. rewrite Hex in Hv1, Hh1. cbn [snd] in Hv1, Hh1.
  unfold GetInfo. fold hi. rewrite Hex. cbn [fst].
  assert (Hv' : readsV2Info (variant d1) = false) by now rewrite Hv1.
  pose proof (fold_infoLine_model_generic d1 (InfoCommand (Commands hi))
                (Split resp newline) Hv'
                {| Model := name; Firmware := ""; SerialNum := "" |}) as HM.
  rewrite Hv1, Hh1 in HM. fold hi name in HM. cbn [Model] in HM.
  rewrite String.eqb_refl in HM.
  rewrite Hv1. fold name.
  set (info := fold_left _ _ _) in *.
  unfold retainedInfoLines.
  set (retained := filter _ (map TrimSpace (Split resp newline))) in *.
  assert (Hret : forall l, In l retained -> l <> "").
  { intros l Hin. apply filter_In in Hin. destruct Hin as [_ Hk].
    unfold skipsInfoLine in Hk.
    destruct (String.eqb_spec l ""); [discriminate | assumption]. }
  destruct (find _ retained) as [l |] eqn:Hfind.
  - apply find_some in Hfind. destruct Hfind as [Hin Hne].
    apply negb_true_iff in Hne. rewrite HM.
    destruct (String.eqb_spec l ""); [now elim (Hret l Hin)|].
    rewrite Hne. cbn [orb]. exact HM.
  - rewrite HM, String.eqb_refl, orb_true_r. reflexivity.
Qed.

(** X17.  On a variant read in the V2 format, the model is the last retained
    line that names "nanovna" or "saa2", in any case; when there is none,
    or when that line is the display name itself, it is the display name
    followed by " (detected)". *)
Theorem GetInfo_model_v2 (d d1 : Device P) (resp : string) :
  let hi := hardwareInfo d in
  let name := HardwareVariant_String (variant d) in
  readsV2Info (variant d) = true ->
  sendCommand (InfoCommand (Commands hi)) d = ((resp, None), d1) ->
  Model (fst (fst (GetInfo d)))
  = match find (fun l => containsFold l "nanovna" || containsFold l "saa2")
               (rev (retainedInfoLines (PromptPattern (Commands hi))
                                       (InfoCommand (Commands hi)) resp)) with
    | Some l => if String.eqb l name then name ++ " (detected)" else l
    | None => name ++ " (detected)"
    end.
Proof.
  intros hi name Hv Hex.
  pose proof (sendCommand_sameIdentity (InfoCommand (Commands hi)) d) as [Hv1 Hh1].
  fold hi in Hv1, Hh1. rewrite Hex in Hv1, Hh1. cbn [snd] in Hv1, Hh1.
  unfold GetInfo. fold hi. rewrite Hex. cbn [fst].
  assert (Hv' : readsV2Info (variant d1) = true) by now rewrite Hv1.
  pose proof (fold_infoLine_model_v2 d1 (InfoCommand (Commands hi))
                (Split resp newline) Hv'
                {| Model := name; Firmware := ""; SerialNum := "" |}) as HM.
  rewrite Hh1 in HM. fold hi in HM. cbn [Model] in HM.
  rewrite Hv1. fold name.
  set (info := fold_left _ _ _) in *.
  unfold retainedInfoLines.
  set (retained := filter _ (map TrimSpace (Split resp newline))) in *.
  assert (Hret : forall l, In l (rev retained) -> l <> "").
  { intros l Hin. apply in_rev in Hin. apply filter_In in Hin.
    destruct Hin as [_ Hk]. unfold skipsInfoLine in Hk.
    destruct (String.eqb_spec l ""); [discriminate | assumption]. }
  destruct (find _ (rev retained)) as [l |] eqn:Hfind.
  - apply find_some in Hfind. destruct Hfind as [Hin _]. rewrite HM.
    destruct (String.eqb_spec l ""); [now elim (Hret l Hin)|]. cbn [orb].
    destruct (String.eqb l name); [reflexivity | exact HM].
  - rewrite HM, String.eqb_refl, orb_true_r. reflexivity.
Qed.

(** X18.  When the response has no retained line (blank lines, the echo of the
    command and prompt lines only), [GetInfo] succeeds with the display
    name followed by " (detected)" as the model and with an empty firmware
    and serial number, for every variant. *)
Theorem GetInfo_nothing_retained (d d1 : Device P) (resp : string) :
  let hi := hardwareInfo d in
  sendCommand (InfoCommand (Commands hi)) d = ((resp, None), d1) ->
  retainedInfoLines (PromptPattern (Commands hi)) (InfoCommand (Commands hi)) resp
  = [] ->
  GetInfo d
  = (({| Model := HardwareVariant_String (variant d) ++ " (detected)";
         Firmware := ""; SerialNum := "" |}, None), d1).
Proof.
  intros hi Hex Hnone.
  pose proof (sendCommand_sameIdentity (InfoCommand (Commands hi)) d) as [Hv1 Hh1].
  fold hi in Hv1, Hh1. rewrite Hex in Hv1, Hh1. cbn [snd] in Hv1, Hh1.
  unfold GetInfo. fold hi. rewrite Hex.
  unfold retainedInfoLines in Hnone.
  rewrite (fold_infoLine_all_skipped d1 (InfoCommand (Commands hi)))
    by (rewrite Hh1; exact Hnone).
  cbn [Model]. rewrite Hv1, String.eqb_refl, orb_true_r. reflexivity.
Qed.

End InfoProperties.

Lemma GetInfo_model_always_set_sessions :
  fst (GetInfo v1TestDevice)
  = ({| Model := ""; Firmware := ""; SerialNum := "" |}, Some ErrDeviceNotOpen)
  /\ Model (fst (fst (GetInfo vhInfoDevice))) <> "NanoVNA-H".
Proof.
  split.
  - destruct (GetInfo_model_always_set v1TestDevice) as (Herr & _ & Hempty & _).
    rewrite (surjective_pairing (fst (GetInfo v1TestDevice))).
    rewrite Herr, Hempty; [reflexivity | discriminate].
  - destruct (GetInfo_model_always_set vhInfoDevice) as (_ & _ & _ & Hset).
    apply Hset. reflexivity.
Defined.

Lemma GetInfo_model_generic_VH :
  Model (fst (fst (GetInfo vhInfoDevice))) = "Board rev v3.4".
Proof.
  rewrite (GetInfo_model_generic vhInfoDevice
             (snd (sendCommand "info" vhInfoDevice)) vhInfoResponse);
    reflexivity.
Defined.

Lemma GetInfo_model_v2_display_name :
  Model (fst (fst (GetInfo v2InfoDevice))) = "NanoVNA v2 (detected)".
Proof.
  rewrite (GetInfo_model_v2 v2InfoDevice
             (snd (sendCommand "info" v2InfoDevice)) v2InfoResponse);
    reflexivity.
Defined.

Lemma GetInfo_nothing_retained_echo :
  fst (GetInfo echoInfoDevice)
  = ({| Model := "NanoVNA v1 (detected)"; Firmware := ""; SerialNum := "" |}, None).
Proof.
  rewrite (GetInfo_nothing_retained echoInfoDevice
             (snd (sendCommand "info" echoInfoDevice)) echoInfoResponse);
    reflexivity.
Defined.

(* ================================================================== *)
(** * Further properties of the variant detector *)

Section DetectorOutcomes.

Context {P : Type} {SP : SerialPort P}.

(** The version and the variant [classify] pairs: "v1" goes with V1,
    TinySA and LiteVNA, "vh" with VH and V1, "v2" with V2, V2Plus, V2Plus4
    and SAA2, and "unknown" with Unknown alone. *)
Lemma classify_pairs (response info : string) :
  let ver := fst (classify response info) in
  let v := snd (classify response info) in
  (ver = "v1" /\ (v = VariantV1 \/ v = VariantTinysa \/ v = VariantLiteVNA))
  \/ (ver = "vh" /\ (v = VariantVH \/ v = VariantV1))
  \/ (ver = "v2" /\ (v = VariantV2 \/ v = VariantV2Plus \/ v = VariantV2Plus4
                     \/ v = VariantSAA2))
  \/ (ver = "unknown" /\ v = VariantUnknown).
Proof.
  unfold classify.
  destruct (HasPrefix response "ch> ").
  { left. split; [reflexivity|]. cbn.
    destruct (Contains _ "tinysa"); [auto|].
    destruct (Contains _ "litevna"); auto. }
  destruct (_ || _).
  { right. left. split; [reflexivity|]. cbn.
    destruct (Contains _ "nanovna v1"); auto. }
  destruct (_ || _).
  { right. right. left. split; [reflexivity|]. cbn.
    destruct (Contains _ "plus4"); [auto|].
    destruct (Contains _ "plus"); [auto|].
    destruct (Contains _ "saa2"); auto. }
  right. right. right. now split.
Qed.

(** X19.  What a caller gets back from [DetectVersion].  Without an error, the
    label returned is the version stored in the session, and it is "v1"
    with the variant V1, TinySA or LiteVNA, "vh" with VH or V1, or "v2"
    with V2, V2Plus, V2Plus4 or SAA2: the labels "tinysa" and "litevna" of
    [OpenWithVariant] are never produced.  With the unrecognized-response
    error, the label returned and the version stored are "unknown". *)
Theorem DetectVersion_labels (d : Device P) :
  let label := fst (fst (DetectVersion d)) in
  let err := snd (fst (DetectVersion d)) in
  let d' := snd (DetectVersion d) in
  (err = None ->
   label = version d'
   /\ ((label = "v1" /\ (variant d' = VariantV1 \/ variant d' = VariantTinysa
                         \/ variant d' = VariantLiteVNA))
       \/ (label = "vh" /\ (variant d' = VariantVH \/ variant d' = VariantV1))
       \/ (label = "v2" /\ (variant d' = VariantV2 \/ variant d' = VariantV2Plus
                            \/ variant d' = VariantV2Plus4
                            \/ variant d' = VariantSAA2))))
  /\ (forall response,
         err = Some (ErrUnrecognizedResponse response) ->
         label = "unknown" /\ version d' = "unknown").
Proof.
  unfold DetectVersion.
  destruct (portHandle d) as [p |]; [|split; [discriminate | intros ?; discriminate]].
  destruct (port_Read p bufLen) as [drained p1].
  destruct (port_Write p1 cr) as [[e |] p2];
    [split; [discriminate | intros ?; discriminate]|].
  destruct (port_Read p2 bufLen) as [[probe [e |]] p3];
    [split; [discriminate | intros ?; discriminate]|].
  destruct (sendCommand "info" _) as [[info ierr] d1].
  pose proof (classify_pairs probe info) as Hpairs.
  destruct (classify probe info) as [ver v]. cbn [fst snd] in Hpairs.
  destruct Hpairs as [[-> Hv] | [[-> Hv] | [[-> Hv] | [-> ->]]]].
  - assert (Hne : HardwareVariant_eqb v VariantUnknown = false)
      by (destruct Hv as [-> | [-> | ->]]; reflexivity).
    rewrite Hne. cbn. split; [|intros ?; discriminate].
    intros _. split; [reflexivity|]. left. now split.
  - assert (Hne : HardwareVariant_eqb v VariantUnknown = false)
      by (destruct Hv as [-> | ->]; reflexivity).
    rewrite Hne. cbn. split; [|intros ?; discriminate].
    intros _. split; [reflexivity|]. right. left. now split.
  - assert (Hne : HardwareVariant_eqb v VariantUnknown = false)
      by (destruct Hv as [-> | [-> | [-> | ->]]]; reflexivity).
    rewrite Hne. cbn. split; [|intros ?; discriminate].
    intros _. split; [reflexivity|]. right. right. now split.
  - cbn. split; [discriminate|]. intros response _. now split.
Qed.

(** X20.  Once the probe has been read, detection fails exactly when the probe
    response matches no rule, whatever the info exchange returned, error
    included; the error then carries the probe response.  When a rule
    matches and the info text has none of the refining words, the variant
    is the base variant of the rule: V1 for the prefix "ch> ", VH for the
    NanoVNA-H prefixes, V2 for the V2 probe. *)
Theorem DetectVersion_rules
    (d d1 : Device P) (p p1 p2 p3 : P) (drained : string * option string)
    (response info : string) (ierr : option error) :
  portHandle d = Some p ->
  port_Read p bufLen = (drained, p1) ->
  port_Write p1 cr = (None, p2) ->
  port_Read p2 bufLen = ((response, None), p3) ->
  sendCommand "info" (withPortHandle d (Some p3)) = ((info, ierr), d1) ->
  snd (fst (DetectVersion d))
  = (if matchesNoRule response
     then Some (ErrUnrecognizedResponse response) else None)
  /\ (plainInfo info = true ->
      variant (snd (DetectVersion d))
      = if HasPrefix response "ch> " then VariantV1
        else if isVHProbe response then VariantVH
        else if isV2Probe response then VariantV2
        else VariantUnknown).
Proof.
  intros Hd Hdrain Hwrite Hread Hinfo.
  rewrite (DetectVersion_classified _ _ _ _ _ _ _ _ _ _ Hd Hdrain Hwrite Hread Hinfo).
  unfold matchesNoRule, isVHProbe, isV2Probe, plainInfo, containsFold, classify.
  cbn [fst snd variant withIdentity].
  destruct (HasPrefix response "ch> "); cbn [negb andb].
  { split.
    - destruct (Contains _ "tinysa"); [reflexivity|].
      destruct (Contains _ "litevna"); reflexivity.
    - destruct (Contains _ "tinysa"); [discriminate|].
      destruct (Contains _ "litevna"); [discriminate|]. reflexivity. }
  destruct (HasPrefix response (crlf ++ "ch> ")
            || HasPrefix response (crlf ++ "?" ++ crlf ++ "ch> ")); cbn [negb andb].
  { split.
    - destruct (Contains _ "nanovna v1"); reflexivity.
    - destruct (Contains _ "tinysa"); [discriminate|].
      destruct (Contains _ "litevna"); [discriminate|].
      destruct (Contains _ "nanovna v1"); [discriminate|]. reflexivity. }
  destruct (HasPrefix response "2" || Contains response "2>"); cbn [negb andb].
  { split.
    - destruct (Contains _ "plus4"); [reflexivity|].
      destruct (Contains _ "plus"); [reflexivity|].
      destruct (Contains _ "saa2"); reflexivity.
    - destruct (Contains _ "tinysa"); [discriminate|].
      destruct (Contains _ "litevna"); [discriminate|].
      destruct (Contains _ "nanovna v1"); [discriminate|].
      destruct (Contains _ "plus4"); [discriminate|].
      destruct (Contains _ "plus"); [discriminate|].
      destruct (Contains _ "saa2"); [discriminate|]. reflexivity. }
  split; reflexivity.
Qed.

End DetectorOutcomes.

Lemma DetectVersion_labels_litevna :
  fst (fst (DetectVersion (deviceOn litevnaScript VariantUnknown))) = "v1"
  /\ version (snd (DetectVersion (deviceOn litevnaScript VariantUnknown))) = "v1"
  /\ version (snd (DetectVersion (deviceOn strangerScript VariantV2))) = "unknown".
Proof.
  destruct (DetectVersion_labels (deviceOn litevnaScript VariantUnknown))
    as [Hok _].
  destruct (DetectVersion_labels (deviceOn strangerScript VariantV2))
    as [_ Hbad].
  destruct (Hok eq_refl) as [Hlabel _].
  split; [reflexivity|]. split.
  - rewrite <- Hlabel. reflexivity.
  - apply (Hbad "hello"). reflexivity.
Defined.

Lemma DetectVersion_rules_stranger :
  snd (fst (DetectVersion (deviceOn strangerScript VariantV2)))
  = Some (ErrUnrecognizedResponse "hello")
  /\ variant (snd (DetectVersion (deviceOn (script [("", None); ("2>", None)])
                                           VariantUnknown)))
     = VariantV2.
Proof.
  split.
  - refine (proj1 (DetectVersion_rules (deviceOn strangerScript VariantV2)
                     _ _ _ _ _ _ "hello" "ch> " _ _ _ _ _ _)); reflexivity.
  - refine (proj2 (DetectVersion_rules
                     (deviceOn (script [("", None); ("2>", None)]) VariantUnknown)
                     _ _ _ _ _ _ "2>" "" _ _ _ _ _ _) _); reflexivity.
Defined.

(* ================================================================== *)
(** * Opening, closing and finding a device *)

Section LifecycleProperties.

Context {P : Type} {SP : SerialPort P} {F : Type} {FL : Float64 F}.
Variable serial_OpenPort : PortConfig -> P + string.
Variable os_Open : string -> bool.

(** X22.  After [Close] the device has no handle, and every operation that
    needs the port fails with the device-not-open error without changing
    the device: [sendCommand], [DetectVersion] and [GetInfo] return it,
    [RunSweep] wraps it in its frequencies error; a second [Close] does
    nothing and returns no error. *)
Theorem Close_then_not_open (d : Device P) (cmd : string) :
  let d' := snd (Close d) in
  portHandle d' = None
  /\ Close d' = (None, d')
  /\ sendCommand cmd d' = (("", Some ErrDeviceNotOpen), d')
  /\ DetectVersion d' = (("", Some ErrDeviceNotOpen), d')
  /\ GetInfo d'
     = (({| Model := ""; Firmware := ""; SerialNum := "" |},
         Some ErrDeviceNotOpen), d')
  /\ RunSweep (F:=F) d'
     = ((emptySweep, Some (ErrGetFrequencies ErrDeviceNotOpen)), d').
Proof.
  intros d'.
  assert (Hclosed : portHandle d' = None).
  { subst d'. unfold Close. destruct (portHandle d) as [p |] eqn:Hd.
    - now destruct (port_Close p).
    - exact Hd. }
  split; [exact Hclosed|].
  unfold Close, DetectVersion, GetInfo, RunSweep, sendCommand.
  rewrite Hclosed. repeat split.
Qed.

(** The two ways of [Open]: a custom port, or the operating system. *)
Lemma Open_cases (port : string) :
  (forall (sp : P) (rest : list (option P)),
      Open serial_OpenPort port (Some sp :: rest)
      = (Some {| Port := port; portHandle := Some sp; config := None;
                 version := ""; variant := VariantUnknown;
                 hardwareInfo := getHardwareInfo VariantUnknown |}, None))
  /\ (forall custom : list (option P),
        hd None custom = None ->
        let c := {| Name := port; Baud := 9600; ReadTimeout := 5000000000;
                    Size := 8; Parity := 78; StopBits := 1 |} in
        (forall e, serial_OpenPort c = inr e ->
                   Open serial_OpenPort port custom = (None, Some (PortError e)))
        /\ (forall s, serial_OpenPort c = inl s ->
                      Open serial_OpenPort port custom
                      = (Some {| Port := port; portHandle := Some s;
                                 config := Some c; version := "";
                                 variant := VariantUnknown;
                                 hardwareInfo := getHardwareInfo VariantUnknown |},
                         None))).
Proof.
  split.
  - reflexivity.
  - intros custom Hhd c. unfold Open.
    change (time_Second * 5) with 5000000000.
    change serial_ParityNone with 78. change serial_Stop1 with 1.
    fold c.
    destruct custom as [| [sp |] rest]; [|discriminate Hhd|];
      (split; [intros e He | intros s Hs]); rewrite ?He, ?Hs; reflexivity.
Qed.


(** The names [ListDevices] returns and its error. *)
Lemma ListDevices_names :
  let ports := fst (ListDevices os_Open) in
  let err := snd (ListDevices os_Open) in
  (forall name,
      In name ports <->
      exists i : nat, (1 <= i <= 20)%nat
                      /\ name = "COM" ++ formatInt (Z.of_nat i)
                      /\ os_Open ("//./" ++ name) = true)
  /\ (ports = [] /\ err = Some ErrNoSerialPorts \/ ports <> [] /\ err = None).
Proof.
  unfold ListDevices.
  set (names := map _ (seq 1 20)).
  set (accepted := filter _ names).
  assert (Hin : forall name,
             In name accepted <->
             exists i : nat, (1 <= i <= 20)%nat
                             /\ name = "COM" ++ formatInt (Z.of_nat i)
                             /\ os_Open ("//./" ++ name) = true).
  { intros name. unfold accepted. rewrite filter_In. unfold names.
    rewrite in_map_iff. split.
    - intros [(i & Hname & Hi) Hopen]. apply in_seq in Hi.
      exists i. split; [lia|]. split; [|exact Hopen].
      rewrite <- Hname. cbn [Sprintf]. now rewrite append_empty_r.
    - intros (i & Hi & Hname & Hopen). split; [|exact Hopen].
      exists i. split; [|apply in_seq; lia].
      rewrite Hname. cbn [Sprintf]. now rewrite append_empty_r. }
  destruct accepted as [| name rest] eqn:Hacc; cbn [fst snd].
  - split; [exact Hin|]. left. now split.
  - split; [exact Hin|]. right. split; [discriminate | reflexivity].
Qed.

(** X24.  [ListDevices] returns the names among COM1 .. COM20 that [os.Open]
    accepts under the prefix "//./", and the no-serial-ports error, with
    no name, exactly when it accepts none. *)
Theorem ListDevices_outcome :
  let ports := fst (ListDevices os_Open) in
  let err := snd (ListDevices os_Open) in
  (forall name,
      In name ports <->
      exists i : nat, (1 <= i <= 20)%nat
                      /\ name = "COM" ++ formatInt (Z.of_nat i)
                      /\ os_Open ("//./" ++ name) = true)
  /\ (ports = [] /\ err = Some ErrNoSerialPorts \/ ports <> [] /\ err = None).
Proof.
  exact (ListDevices_names).
Qed.

(** [DetectVersion] keeps the port name and the stored configuration, and
    an open handle stays open. *)
Lemma DetectVersion_frame (d : Device P) :
  Port (snd (DetectVersion d)) = Port d
  /\ config (snd (DetectVersion d)) = config d
  /\ (portHandle d <> None -> portHandle (snd (DetectVersion d)) <> None).
Proof.
  unfold DetectVersion.
  destruct (portHandle d) as [p |] eqn:Hd;
    [|split; [reflexivity|]; split; [reflexivity|]; intros H; now elim H].
  destruct (port_Read p bufLen) as [drained p1].
  destruct (port_Write p1 cr) as [[e |] p2]; [repeat split; discriminate|].
  destruct (port_Read p2 bufLen) as [[probe [e |]] p3];
    [repeat split; discriminate|].
  pose proof (sendCommand_keeps_device "info" (withPortHandle d (Some p3))) as Hframe.
  destruct (sendCommand "info" _) as [[info ierr] d1].
  cbn [snd] in Hframe. destruct Hframe as (HP & HC & _ & _ & HH).
  destruct (classify probe info) as [ver v].
  destruct (HardwareVariant_eqb v VariantUnknown); cbn;
    (split; [exact HP|]; split; [exact HC|]; intros _; apply HH; discriminate).
Qed.

Lemma detectOn_outcome (ports : list string) :
  (forall d, fst (detectOn serial_OpenPort ports) = Some d ->
             snd (detectOn serial_OpenPort ports) = None
             /\ In (Port d) ports
             /\ variant d <> VariantUnknown
             /\ portHandle d <> None
             /\ config d <> None)
  /\ (fst (detectOn serial_OpenPort ports) = None ->
      snd (detectOn serial_OpenPort ports) = Some ErrNoDevicesFound).
Proof.
  induction ports as [| port rest [IHsome IHnone]]; cbn [detectOn].
  { split; [discriminate | reflexivity]. }
  assert (Hrest :
            (forall d, fst (detectOn serial_OpenPort rest) = Some d ->
                       snd (detectOn serial_OpenPort rest) = None
                       /\ In (Port d) (port :: rest)
                       /\ variant d <> VariantUnknown
                       /\ portHandle d <> None /\ config d <> None)
            /\ (fst (detectOn serial_OpenPort rest) = None ->
                snd (detectOn serial_OpenPort rest) = Some ErrNoDevicesFound)).
  { split; [|exact IHnone]. intros d Hd.
    destruct (IHsome d Hd) as (H1 & H2 & H3). split; [exact H1|].
    split; [now right | exact H3]. }
  destruct (Open_cases port) as [_ Hopen].
  specialize (Hopen [] eq_refl). cbv zeta in Hopen. destruct Hopen as [Herr Hok].
  destruct (serial_OpenPort _) as [s | e].
  - rewrite (Hok s eq_refl).
    match goal with
    | |- context [DetectVersion ?x] =>
        pose proof (DetectVersion_frame x) as (HP & HC & HH);
        pose proof (DetectVersion_cases x) as Hcases;
        destruct (DetectVersion x) as [[label err] device']
    end.
    cbn [fst snd Port config portHandle] in *.
    destruct err as [e |]; [exact Hrest|].
    destruct Hcases as [[_ (e & He & _)] | [_ [[_ Hv] | [[resp Hbad] _]]]];
      try discriminate.
    split; [|discriminate]. intros d [= <-].
    split; [reflexivity|]. split; [left; now rewrite HP|].
    split; [exact Hv|]. split; [apply HH; discriminate|].
    rewrite HC. discriminate.
  - rewrite (Herr e eq_refl). exact Hrest.
Qed.

(** X25.  [AutoDetect] returns a device together with no error, or no device
    together with an error.  The device was opened on one of the listed
    ports through [serial.OpenPort], so its configuration is stored and
    its handle open, and its detection succeeded, so its variant is not
    Unknown.  The error is the list-ports error, when no port is listed,
    or the no-devices-found error. *)
Theorem AutoDetect_outcome :
  let result := AutoDetect serial_OpenPort os_Open in
  (forall d, fst result = Some d ->
             snd result = None
             /\ In (Port d) (fst (ListDevices os_Open))
             /\ variant d <> VariantUnknown
             /\ portHandle d <> None
             /\ config d <> None)
  /\ (fst result = None ->
      snd result = Some (ErrListPorts ErrNoSerialPorts)
      \/ snd result = Some ErrNoDevicesFound).
Proof.
  unfold AutoDetect.
  destruct ListDevices_names as [_ Hlist].
  destruct (ListDevices os_Open) as [ports [e |]]; cbn [fst snd] in *.
  - split; [discriminate|]. intros _. left.
    destruct Hlist as [[_ [= ->]] | [_ Hne]]; [reflexivity | discriminate].
  - destruct (detectOn_outcome ports) as [Hsome Hnone].
    split; [exact Hsome|]. intros H. right. now apply Hnone.
Qed.

End LifecycleProperties.


Lemma ListDevices_outcome_COM3 :
  In "COM3" (fst (ListDevices onlyCOM3))
  /\ ~ In "COM21" (fst (ListDevices noFile)).
Proof.
  split.
  - apply (proj1 (ListDevices_outcome onlyCOM3)).
    exists 3%nat. split; [lia|]. split; reflexivity.
  - intros Hin. apply (proj1 (ListDevices_outcome noFile)) in Hin.
    destruct Hin as (i & _ & _ & Hopen). discriminate Hopen.
Defined.

Lemma AutoDetect_outcome_COM3 :
  exists d : Device ScriptedPort,
    fst (AutoDetect liteVNAOnCOM3 onlyCOM3) = Some d
    /\ snd (AutoDetect liteVNAOnCOM3 onlyCOM3) = None
    /\ variant d <> VariantUnknown
    /\ config d <> None.
Proof.
  destruct (AutoDetect_outcome liteVNAOnCOM3 onlyCOM3) as [Hsome _].
  destruct (fst (AutoDetect liteVNAOnCOM3 onlyCOM3)) as [d |] eqn:Hd;
    [|discriminate Hd].
  destruct (Hsome d eq_refl) as (Herr & _ & Hv & _ & Hc).
  exists d. split; [reflexivity|]. split; [exact Herr|]. split; assumption.
Defined.

(** X14.  The exchanges of a sweep.  Once the exchanges of the frequencies and
    of S11 have succeeded, [RunSweep] has written the frequency command
    and the data command for port 0, each once with its carriage return,
    and after them the data command for port 1 exactly when the session
    declares S21 and lists the port: a session without S21 is never asked
    for it.  The sweep costs at most 33 reads. *)
Theorem RunSweep_scripted_commands {F : Type} {FL : Float64 F}
    (d d1 d2 : Device ScriptedPort) (s : ScriptedPort)
    (freqResp s11Resp : string) :
  let hi := hardwareInfo d in
  portHandle d = Some s ->
  sendCommand (FreqCommand (Commands hi)) d = ((freqResp, None), d1) ->
  sendCommand (Sprintf (DataCommand (Commands hi)) [0]) d1 = ((s11Resp, None), d2) ->
  exists s' : ScriptedPort,
    portHandle (snd (RunSweep (F:=F) d)) = Some s'
    /\ written s'
       = (written s
          ++ [(FreqCommand (Commands hi) ++ cr)%string;
              (Sprintf (DataCommand (Commands hi)) [0] ++ cr)%string]
          ++ (if HasS21 (Capabilities hi) && IsPortSupported d "S21"
              then [(Sprintf (DataCommand (Commands hi)) [1] ++ cr)%string]
              else []))%list
    /\ (reads s' <= reads s + 33)%nat.
Proof.
  intros hi Hd Hfreq Hs11.
  destruct (sendCommand_scripted_counts (FreqCommand (Commands hi)) d s Hd)
    as (s1 & Hd1 & Hr1 & Hw1).
  fold hi in Hd1. rewrite Hfreq in Hd1. cbn [snd] in Hd1.
  destruct (sendCommand_scripted_counts
              (Sprintf (DataCommand (Commands hi)) [0]) d1 s1 Hd1)
    as (s2 & Hd2 & Hr2 & Hw2).
  rewrite Hs11 in Hd2. cbn [snd] in Hd2.
  assert (Hport2 : IsPortSupported d2 "S21" = IsPortSupported d "S21").
  { unfold IsPortSupported.
    pose proof (sendCommand_sameIdentity (FreqCommand (Commands hi)) d) as [_ H1].
    pose proof (sendCommand_sameIdentity (Sprintf (DataCommand (Commands hi)) [0]) d1)
      as [_ H2].
    fold hi in H1. rewrite Hfreq in H1. rewrite Hs11 in H2. cbn [snd] in H1, H2.
    now rewrite H2, H1. }
  unfold RunSweep. fold hi. rewrite Hfreq, Hs11, Hport2.
  destruct (HasS21 (Capabilities hi) && IsPortSupported d "S21").
  - destruct (sendCommand_scripted_counts
                (Sprintf (DataCommand (Commands hi)) [1]) d2 s2 Hd2)
      as (s3 & Hd3 & Hr3 & Hw3).
    destruct (sendCommand (Sprintf (DataCommand (Commands hi)) [1]) d2)
      as [[s21Resp [e |]] d3]; cbn [snd] in Hd3;
      destruct (_ || _); cbn [snd]; exists s3;
      (split; [exact Hd3|]; split; [|lia]);
      rewrite Hw3, Hw2, Hw1, <- !app_assoc; reflexivity.
  - destruct (_ || _); cbn [snd]; exists s2;
      (split; [exact Hd2|]; split; [|lia]);
      rewrite Hw2, Hw1, <- !app_assoc; reflexivity.
Qed.

Lemma RunSweep_scripted_commands_tinysa :
  exists s' : ScriptedPort,
    portHandle (snd (RunSweep (F:=Z * nat) tinysaSweepDevice)) = Some s'
    /\ written s' = [("frequencies" ++ cr)%string; ("data 0" ++ cr)%string].
Proof.
  destruct (RunSweep_scripted_commands (F:=Z * nat) tinysaSweepDevice
              (snd (sendCommand "frequencies" tinysaSweepDevice))
              (snd (sendCommand "data 0"
                      (snd (sendCommand "frequencies" tinysaSweepDevice))))
              sweepScript
              (fst (fst (sendCommand "frequencies" tinysaSweepDevice)))
              (fst (fst (sendCommand "data 0"
                           (snd (sendCommand "frequencies" tinysaSweepDevice))))))
    as (s' & Hs' & Hw & _).
  - reflexivity.
  - reflexivity.
  - reflexivity.
  - exists s'. split; [exact Hs' | exact Hw].
Defined.

(** X21.  The exchanges of a detection.  On a port that logs, [DetectVersion]
    writes a bare carriage return and then, unless the read of the probe
    fails, the command "info" with its carriage return, and nothing else;
    it makes at most 13 reads. *)
Theorem DetectVersion_scripted_exchanges
    (d : Device ScriptedPort) (s : ScriptedPort) :
  portHandle d = Some s ->
  exists s' : ScriptedPort,
    portHandle (snd (DetectVersion d)) = Some s'
    /\ (reads s' <= reads s + 13)%nat
    /\ ((exists e, snd (fst (DetectVersion d)) = Some (PortError e))
        /\ written s' = (written s ++ [cr])%list
        \/ written s' = (written s ++ [cr; ("info" ++ cr)%string])%list).
Proof.
  intros Hd. unfold DetectVersion. rewrite Hd.
  cbn [port_Read port_Write ScriptedPort_SerialPort].
  destruct (Scripted_Read s bufLen) as [drained s1] eqn:Hdrain.
  destruct (Scripted_Read_counts _ _ _ _ Hdrain) as [Hr1 Hw1].
  unfold Scripted_Write. cbn [fst snd].
  match goal with
  | |- context [Scripted_Read ?x bufLen] =>
      destruct (Scripted_Read x bufLen) as [[probe err] s3] eqn:Hprobe
  end.
  destruct (Scripted_Read_counts _ _ _ _ Hprobe) as [Hr3 Hw3].
  cbn [reads written] in Hr3, Hw3.
  destruct err as [e |].
  - exists s3. cbn [snd fst portHandle withPortHandle].
    split; [reflexivity|]. split; [lia|]. left.
    split; [now exists e|]. now rewrite Hw3, Hw1.
  - destruct (sendCommand_scripted_counts "info"
                (withPortHandle d (Some s3)) s3 eq_refl)
      as (s4 & Hd4 & Hr4 & Hw4).
    destruct (sendCommand "info" (withPortHandle d (Some s3)))
      as [[info ierr] d1]. cbn [snd] in Hd4.
    destruct (classify probe info) as [ver v].
    exists s4.
    destruct (HardwareVariant_eqb v VariantUnknown);
      cbn [snd fst portHandle withIdentity];
      (split; [exact Hd4|]; split; [lia|]; right);
      rewrite Hw4, Hw3, Hw1, <- app_assoc; reflexivity.
Qed.

Lemma DetectVersion_scripted_exchanges_litevna :
  exists s' : ScriptedPort,
    portHandle (snd (DetectVersion (deviceOn litevnaScript VariantUnknown))) = Some s'
    /\ (reads s' <= 13)%nat.
Proof.
  destruct (DetectVersion_scripted_exchanges
              (deviceOn litevnaScript VariantUnknown) litevnaScript)
    as (s' & Hs' & Hr & _).
  - reflexivity.
  - exists s'. split; [exact Hs' | exact Hr].
Defined.
